(** * xcursor_extractor: alpha separation and frame extraction

    A shallow embedding of [xcursor_extractor.c].

    The pixel transform [separate_alpha_pixel] is a function on the value
    of a 32-bit [XcursorPixel], with the wrap-around of [unsigned int]
    written out, once for each branch of the [#if] on [__BYTE_ORDER].

    The rest of the program talks to the operating system, libXcursor and
    libpng.  Their answers are the fields of an environment [Env]; a
    function of the program returns its C return value together with the
    list of the effects it had, in order ([IO]).  Early [return]s are the
    branches of the conditionals, the [for] loops are recursions on the
    list of images. *)

From Stdlib Require Import ZArith Lia List String Ascii Bool DecimalString.
From Stdlib Require DecimalPos.
Import ListNotations.
Local Open Scope Z_scope.

(** ** Machine integers *)

(** [unsigned int] and [XcursorPixel] are 32 bits wide; every arithmetic
    result is reduced modulo [2^32]. *)
Definition UINT_WIDTH : Z := 32.

Definition uint (z : Z) : Z := z mod 2 ^ UINT_WIDTH.

Definition is_uint (z : Z) : Prop := 0 <= z < 2 ^ UINT_WIDTH.

(** The two values of [__BYTE_ORDER] the source distinguishes: the [#if]
    branch is taken for [LITTLE_ENDIAN], the [#else] branch otherwise. *)
Inductive ByteOrder : Type := LITTLE_ENDIAN | BIG_ENDIAN.

(** ** The pixel transform *)

(** [separate_alpha_pixel], lines 244-283.  The C function updates
    [*pixel] in place; the embedding maps the old value to the new one. *)
Definition separate_alpha_pixel (order : ByteOrder) (pixel : Z) : Z :=
  (* Extract components *)
  let blue :=
    match order with
    | LITTLE_ENDIAN => Z.land pixel 0xFF
    | BIG_ENDIAN => Z.land (Z.shiftr pixel 24) 0xFF
    end in
  let green :=
    match order with
    | LITTLE_ENDIAN => Z.land (Z.shiftr pixel 8) 0xFF
    | BIG_ENDIAN => Z.land (Z.shiftr pixel 16) 0xFF
    end in
  let red :=
    match order with
    | LITTLE_ENDIAN => Z.land (Z.shiftr pixel 16) 0xFF
    | BIG_ENDIAN => Z.land (Z.shiftr pixel 8) 0xFF
    end in
  let alpha :=
    match order with
    | LITTLE_ENDIAN => Z.land (Z.shiftr pixel 24) 0xFF
    | BIG_ENDIAN => Z.land pixel 0xFF
    end in
  (* If alpha is 0, pixel is fully transparent *)
  if alpha =? 0 then 0
  else
    (* Separate pre-multiplied alpha *)
    let red := uint (uint (uint (red * 255) + alpha / 2) / alpha) in
    let green := uint (uint (uint (green * 255) + alpha / 2) / alpha) in
    let blue := uint (uint (uint (blue * 255) + alpha / 2) / alpha) in
    (* Clamp values *)
    let red := if 255 <? red then 255 else red in
    let green := if 255 <? green then 255 else green in
    let blue := if 255 <? blue then 255 else blue in
    (* Reconstruct pixel *)
    match order with
    | LITTLE_ENDIAN =>
        uint (Z.lor (Z.lor (Z.lor blue (uint (Z.shiftl green 8)))
                           (uint (Z.shiftl red 16)))
                    (uint (Z.shiftl alpha 24)))
    | BIG_ENDIAN =>
        uint (Z.lor (Z.lor (Z.lor alpha (uint (Z.shiftl red 8)))
                           (uint (Z.shiftl green 16)))
                    (uint (Z.shiftl blue 24)))
    end.

(** The channel layout, as read at lines 249-259 of [separate_alpha_pixel]
    and again at lines 212-224 of [save_frame_as_png]. *)
Definition alpha_of (order : ByteOrder) (pixel : Z) : Z :=
  match order with
  | LITTLE_ENDIAN => Z.land (Z.shiftr pixel 24) 0xFF
  | BIG_ENDIAN => Z.land pixel 0xFF
  end.

Definition red_of (order : ByteOrder) (pixel : Z) : Z :=
  match order with
  | LITTLE_ENDIAN => Z.land (Z.shiftr pixel 16) 0xFF
  | BIG_ENDIAN => Z.land (Z.shiftr pixel 8) 0xFF
  end.

Definition green_of (order : ByteOrder) (pixel : Z) : Z :=
  match order with
  | LITTLE_ENDIAN => Z.land (Z.shiftr pixel 8) 0xFF
  | BIG_ENDIAN => Z.land (Z.shiftr pixel 16) 0xFF
  end.

Definition blue_of (order : ByteOrder) (pixel : Z) : Z :=
  match order with
  | LITTLE_ENDIAN => Z.land pixel 0xFF
  | BIG_ENDIAN => Z.land (Z.shiftr pixel 24) 0xFF
  end.

(** The layout written at lines 278-282, over the integers (no
    wrap-around): the mathematical packing of four channel values. *)
Definition pack (order : ByteOrder) (alpha red green blue : Z) : Z :=
  match order with
  | LITTLE_ENDIAN =>
      Z.lor (Z.lor (Z.lor blue (Z.shiftl green 8)) (Z.shiftl red 16))
            (Z.shiftl alpha 24)
  | BIG_ENDIAN =>
      Z.lor (Z.lor (Z.lor alpha (Z.shiftl red 8)) (Z.shiftl green 16))
            (Z.shiftl blue 24)
  end.

(** The round-half-up quotient of the spec, over the integers, and the
    clamp to the range of a byte. *)
Definition unpremultiply_channel (c a : Z) : Z := (c * 255 + a / 2) / a.

Definition clamp255 (v : Z) : Z := Z.max 0 (Z.min 255 v).

(** The right-hand side of lines 268-270 in machine arithmetic, before
    the clamp. *)
Definition scaled (c alpha : Z) : Z :=
  uint (uint (uint (c * 255) + alpha / 2) / alpha).

(** Reversal of the four bytes of a 32-bit value. *)
Definition bswap32 (pixel : Z) : Z :=
  Z.lor (Z.lor (Z.lor (Z.land (Z.shiftr pixel 24) 0xFF)
                      (Z.shiftl (Z.land (Z.shiftr pixel 16) 0xFF) 8))
               (Z.shiftl (Z.land (Z.shiftr pixel 8) 0xFF) 16))
        (Z.shiftl (Z.land pixel 0xFF) 24).

(** The other branch of the [#if]. *)
Definition opposite (order : ByteOrder) : ByteOrder :=
  match order with
  | LITTLE_ENDIAN => BIG_ENDIAN
  | BIG_ENDIAN => LITTLE_ENDIAN
  end.

(** ** Cursor data *)

(** [XcursorImage] and [XcursorComment] of [Xcursor.h], with the fields
    the program reads.  The dimension fields are 32-bit unsigned. *)
Record XcursorImage : Type := {
  size : Z;
  width : Z;
  height : Z;
  xhot : Z;
  yhot : Z;
  delay : Z;
  pixels : list Z
}.

Record XcursorComment : Type := {
  comment_type : Z;
  comment : string
}.

(** [XcursorImages] holds the array [images] and its length [nimage]; the
    two are modelled together as a list, and likewise [XcursorComments]. *)
Definition XcursorImages : Type := list XcursorImage.
Definition nimage (images : XcursorImages) : Z := Z.of_nat (List.length images).

Definition XcursorComments : Type := list XcursorComment.
Definition ncomment (comments : XcursorComments) : Z :=
  Z.of_nat (List.length comments).

(** ** Formatted output *)

Definition newline : string := String (ascii_of_nat 10) EmptyString.
Definition tab : string := String (ascii_of_nat 9) EmptyString.

(** A 32-bit value read as an [int], as [%d] does with an unsigned
    argument. *)
Definition as_int (z : Z) : Z :=
  if uint z <? 2 ^ 31 then uint z else uint z - 2 ^ 32.

(** [%d]. *)
Definition fmt_d (z : Z) : string := NilZero.string_of_int (Z.to_int z).

Fixpoint zeros (n : nat) : string :=
  match n with
  | O => EmptyString
  | S n' => String "0" (zeros n')
  end.

(** [%03d]: zero padding to a minimum width of 3, after the sign. *)
Definition fmt_03d (z : Z) : string :=
  if z <? 0 then
    let digits := fmt_d (- z) in
    String "-" (zeros (2 - String.length digits) ++ digits)
  else
    let digits := fmt_d z in
    zeros (3 - String.length digits) ++ digits.

(** [snprintf] into a buffer of [size] bytes keeps at most [size - 1]
    characters. *)
Definition snprintf (size : nat) (text : string) : string :=
  substring 0 (size - 1) text.

(** ** The environment and its observable effects *)

(** What the operating system, libXcursor and libpng answer.  Each answer
    is a function of the path the call is about. *)
Record Env : Type := {
  access_R_OK : string -> bool;
  (** [stat]: [None] when it fails, else whether the path is a directory *)
  stat_is_dir : string -> option bool;
  mkdir_ok : string -> bool;
  (** [fopen path mode] returns a stream *)
  fopen_ok : string -> string -> bool;
  (** [strerror(errno)] after a failed call on the path *)
  strerror_errno : string -> string;
  (** [XcursorFileLoad] on the stream of the path: [None] when it returns
      false, else the two pointers it stores, [None] for a null pointer *)
  XcursorFileLoad :
    string -> option (option XcursorComments * option XcursorImages);
  png_create_write_struct_ok : string -> bool;
  png_create_info_struct_ok : string -> bool;
  (** whether libpng reports an error ([longjmp] to the [setjmp] of line
      180) while writing the file of the path *)
  png_longjmp : string -> bool
}.

(** The effects of a run, in the order they happen. *)
Inductive Event : Type :=
| to_stdout (text : string)
| to_stderr (text : string)
| mkdir (path : string)
| fopen (path mode : string) (ok : bool)
| fprintf (path text : string)
| fclose (path : string)
| png_written (path : string) (w h : Z) (rows : list (list Z))
| png_aborted (path : string).

(** A computation returns a value and the effects it had. *)
Definition IO (A : Type) : Type := (A * list Event)%type.

Definition ret {A : Type} (a : A) : IO A := (a, []).

Definition bind {A B : Type} (m : IO A) (k : A -> IO B) : IO B :=
  (fst (k (fst m)), snd m ++ snd (k (fst m))).

Definition emit (e : Event) : IO unit := (tt, [e]).

Declare Scope io_scope.
Delimit Scope io_scope with io.
Notation "x <- m ;; k" := (bind m (fun x => k))
  (at level 61, m at next level, right associativity) : io_scope.
Notation "m ;; k" := (bind m (fun _ => k))
  (at level 61, right associativity) : io_scope.
Local Open Scope io_scope.
Local Open Scope string_scope.
Local Open Scope Z_scope.

Definition printf (text : string) : IO unit := emit (to_stdout text).
Definition eprintf (text : string) : IO unit := emit (to_stderr text).

(** ** The program *)

(** [print_usage], lines 309-322. *)
Definition print_usage (program_name : string) : IO unit :=
  printf ("XCursor Frame Extractor" ++ newline) ;;
  printf ("Usage: " ++ program_name
          ++ " <input_cursor_file> <output_directory>" ++ newline) ;;
  printf newline ;;
  printf ("Extracts all frames from an XCursor file and saves them as PNG images."
          ++ newline) ;;
  printf newline ;;
  printf ("Example:" ++ newline) ;;
  printf ("  " ++ program_name
          ++ " /usr/share/icons/Adwaita/cursors/left_ptr ./extracted_frames/"
          ++ newline) ;;
  printf newline ;;
  printf ("Output files:" ++ newline) ;;
  printf ("  frame_001.png, frame_002.png, ... - Individual cursor frames"
          ++ newline) ;;
  printf ("  cursor_info.txt - Metadata about the cursor" ++ newline).

(** [create_directory], lines 285-307. *)
Definition create_directory (env : Env) (path : string) : IO Z :=
  match stat_is_dir env path with
  | Some true => ret 0
  | Some false =>
      eprintf ("Error: '" ++ path ++ "' exists but is not a directory"
               ++ newline) ;;
      ret 1
  | None =>
      if negb (mkdir_ok env path) then
        eprintf ("Error: Cannot create directory '" ++ path ++ "': "
                 ++ strerror_errno env path ++ newline) ;;
        ret 1
      else
        emit (mkdir path) ;;
        ret 0
  end.

(** The four bytes stored in the row for one pixel, lines 212-224. *)
Definition rgba_bytes (order : ByteOrder) (pixel : Z) : list Z :=
  match order with
  | LITTLE_ENDIAN =>
      [Z.land (Z.shiftr pixel 16) 0xFF; Z.land (Z.shiftr pixel 8) 0xFF;
       Z.land pixel 0xFF; Z.land (Z.shiftr pixel 24) 0xFF]
  | BIG_ENDIAN =>
      [Z.land (Z.shiftr pixel 8) 0xFF; Z.land (Z.shiftr pixel 16) 0xFF;
       Z.land (Z.shiftr pixel 24) 0xFF; Z.land pixel 0xFF]
  end.

(** The conversion loops of lines 203-226.  An [XcursorImage] holds
    [width * height] pixels; the default of [nth] stands for a read past
    them. *)
Definition convert_row (order : ByteOrder) (image : XcursorImage) (y : nat)
  : list Z :=
  flat_map
    (fun x =>
       let pixel :=
         nth (Z.to_nat (uint (Z.of_nat y * width image + Z.of_nat x)))
             (pixels image) 0 in
       let pixel := separate_alpha_pixel order pixel in
       rgba_bytes order pixel)
    (seq 0 (Z.to_nat (width image))).

Definition convert_rows (order : ByteOrder) (image : XcursorImage)
  : list (list Z) :=
  map (convert_row order image) (seq 0 (Z.to_nat (height image))).

(** [save_frame_as_png], lines 150-242.  [frame_num] is not used by the
    body. *)
Definition save_frame_as_png (env : Env) (order : ByteOrder)
    (image : XcursorImage) (filename : string) (frame_num : Z) : IO Z :=
  (* Open output file *)
  if negb (fopen_ok env filename "wb") then
    emit (fopen filename "wb" false) ;;
    eprintf ("Error: Cannot create '" ++ filename ++ "': "
             ++ strerror_errno env filename ++ newline) ;;
    ret 1
  else
    emit (fopen filename "wb" true) ;;
    (* Initialize PNG structures *)
    if negb (png_create_write_struct_ok env filename) then
      emit (fclose filename) ;;
      ret 1
    else if negb (png_create_info_struct_ok env filename) then
      emit (fclose filename) ;;
      ret 1
    (* Set up error handling *)
    else if png_longjmp env filename then
      emit (png_aborted filename) ;;
      emit (fclose filename) ;;
      ret 1
    else
      (* header, converted rows and end of the image *)
      emit (png_written filename (width image) (height image)
              (convert_rows order image)) ;;
      emit (fclose filename) ;;
      ret 0.

(** The loop of lines 108-113, from frame index [i] on. *)
Fixpoint write_frame_details (info_file : string) (i : Z)
    (images : list XcursorImage) : IO unit :=
  match images with
  | [] => ret tt
  | img :: rest =>
      emit (fprintf info_file
              (fmt_d (i + 1) ++ tab
               ++ fmt_d (as_int (size img)) ++ "x" ++ fmt_d (as_int (size img))
               ++ tab ++ fmt_d (as_int (width img))
               ++ tab ++ fmt_d (as_int (height img))
               ++ tab ++ fmt_d (as_int (xhot img))
               ++ tab ++ fmt_d (as_int (yhot img))
               ++ tab ++ fmt_d (as_int (delay img)) ++ newline)) ;;
      write_frame_details info_file (i + 1) rest
  end.

(** The loop of lines 117-121. *)
Fixpoint write_comments (info_file : string) (comments : list XcursorComment)
  : IO unit :=
  match comments with
  | [] => ret tt
  | c :: rest =>
      emit (fprintf info_file
              ("Type " ++ fmt_d (as_int (comment_type c)) ++ ": " ++ comment c
               ++ newline)) ;;
      write_comments info_file rest
  end.

(** Lines 98-125: the manifest. *)
Definition write_info_file (env : Env) (input_file output_dir : string)
    (comments : option XcursorComments) (images : XcursorImages) : IO unit :=
  let info_file := snprintf 1024 (output_dir ++ "/cursor_info.txt") in
  if fopen_ok env info_file "w" then
    emit (fopen info_file "w" true) ;;
    emit (fprintf info_file ("Cursor File: " ++ input_file ++ newline)) ;;
    emit (fprintf info_file
            ("Number of frames: " ++ fmt_d (nimage images) ++ newline)) ;;
    emit (fprintf info_file newline) ;;
    emit (fprintf info_file ("Frame Details:" ++ newline)) ;;
    emit (fprintf info_file
            ("Frame" ++ tab ++ "Size" ++ tab ++ "Width" ++ tab ++ "Height"
             ++ tab ++ "XHot" ++ tab ++ "YHot" ++ tab ++ "Delay" ++ newline)) ;;
    write_frame_details info_file 0 images ;;
    match comments with
    | Some cs =>
        if 0 <? ncomment cs then
          emit (fprintf info_file (newline ++ "Comments:" ++ newline)) ;;
          write_comments info_file cs
        else ret tt
    | None => ret tt
    end ;;
    emit (fclose info_file)
  else
    emit (fopen info_file "w" false).

(** The name of the file of the frame of index [i], line 129. *)
Definition output_path (output_dir : string) (i : Z) : string :=
  snprintf 1024 (output_dir ++ "/frame_" ++ fmt_03d (i + 1) ++ ".png").

(** Lines 127-147: the frame loop from index [i] on, and the return that
    ends [extract_cursor_frames]. *)
Fixpoint save_frames (env : Env) (order : ByteOrder) (output_dir : string)
    (i : Z) (images : list XcursorImage) : IO Z :=
  match images with
  | [] => ret 0
  | img :: rest =>
      r <- save_frame_as_png env order img (output_path output_dir i) (i + 1) ;;
      if negb (r =? 0) then
        eprintf ("Error: Failed to save frame " ++ fmt_d (i + 1) ++ newline) ;;
        ret 1
      else
        printf ("Saved frame " ++ fmt_d (i + 1) ++ ": "
                ++ fmt_d (as_int (width img)) ++ "x"
                ++ fmt_d (as_int (height img))
                ++ " (size=" ++ fmt_d (as_int (size img))
                ++ ", delay=" ++ fmt_d (as_int (delay img)) ++ "ms) -> "
                ++ output_path output_dir i ++ newline) ;;
        save_frames env order output_dir (i + 1) rest
  end.

(** [extract_cursor_frames], lines 63-148. *)
Definition extract_cursor_frames (env : Env) (order : ByteOrder)
    (input_file output_dir : string) : IO Z :=
  (* Open cursor file *)
  if negb (fopen_ok env input_file "rb") then
    emit (fopen input_file "rb" false) ;;
    eprintf ("Error: Cannot open '" ++ input_file ++ "': "
             ++ strerror_errno env input_file ++ newline) ;;
    ret 1
  else
    emit (fopen input_file "rb" true) ;;
    (* Load cursor data using libXcursor *)
    match XcursorFileLoad env input_file with
    | None =>
        eprintf ("Error: '" ++ input_file ++ "' is not a valid XCursor file"
                 ++ newline) ;;
        emit (fclose input_file) ;;
        ret 1
    | Some (comments, images) =>
        emit (fclose input_file) ;;
        match images with
        | None =>
            eprintf ("Error: No images found in cursor file" ++ newline) ;;
            ret 1
        | Some images =>
            if nimage images =? 0 then
              eprintf ("Error: No images found in cursor file" ++ newline) ;;
              ret 1
            else
              printf ("Found " ++ fmt_d (nimage images)
                      ++ " frame(s) in cursor file" ++ newline) ;;
              (* Create info file with cursor metadata *)
              write_info_file env input_file output_dir comments images ;;
              (* Extract each frame *)
              save_frames env order output_dir 0 images
        end
    end.

(** [main], lines 30-61; [argc] is the length of [argv]. *)
Definition main (env : Env) (order : ByteOrder) (argv : list string) : IO Z :=
  if negb (Z.of_nat (List.length argv) =? 3) then
    print_usage (nth 0 argv "") ;;
    ret 1
  else
    let input_file := nth 1 argv "" in
    let output_dir := nth 2 argv "" in
    (* Check if input file exists *)
    if negb (access_R_OK env input_file) then
      eprintf ("Error: Cannot read input file '" ++ input_file ++ "': "
               ++ strerror_errno env input_file ++ newline) ;;
      ret 1
    else
      (* Create output directory *)
      r <- create_directory env output_dir ;;
      if negb (r =? 0) then
        eprintf ("Error: Cannot create output directory '" ++ output_dir ++ "'"
                 ++ newline) ;;
        ret 1
      else
        (* Extract cursor frames *)
        result <- extract_cursor_frames env order input_file output_dir ;;
        (if result =? 0 then
           printf ("Successfully extracted cursor frames to '" ++ output_dir
                   ++ "'" ++ newline)
         else ret tt) ;;
        ret result.

(** ** Reading a run *)

(** The texts written to [stderr]. *)
Definition stderr_of (t : list Event) : list string :=
  flat_map (fun e => match e with to_stderr s => [s] | _ => [] end) t.

(** The paths [fopen] was called on in the given mode, whether it
    succeeded or not.  The program opens the manifest in mode ["w"] and
    the frame files in mode ["wb"]. *)
Definition opens (mode : string) (t : list Event) : list string :=
  flat_map
    (fun e =>
       match e with
       | fopen path m _ => if (m =? mode)%string then [path] else []
       | _ => []
       end) t.

(** The texts written to files. *)
Definition file_texts (t : list Event) : list (string * string) :=
  flat_map
    (fun e => match e with fprintf path s => [(path, s)] | _ => [] end) t.

(** The images written in full, with the path of each. *)
Definition images_written (t : list Event)
  : list (string * (Z * Z * list (list Z))) :=
  flat_map
    (fun e =>
       match e with
       | png_written path w h rows => [(path, (w, h, rows))]
       | _ => []
       end) t.

(** The frame files of a list of images numbered from index [i] on: the
    path and the image data [save_frame_as_png] writes for each. *)
Fixpoint frame_files (order : ByteOrder) (output_dir : string) (i : Z)
    (images : list XcursorImage) : list (string * (Z * Z * list (list Z))) :=
  match images with
  | [] => []
  | img :: rest =>
      (output_path output_dir i,
       (width img, height img, convert_rows order img))
      :: frame_files order output_dir (i + 1) rest
  end.

(** The paths of [n] frames numbered from index [i] on. *)
Fixpoint frame_paths (output_dir : string) (i : Z) (n : nat) : list string :=
  match n with
  | O => []
  | S n' => output_path output_dir i :: frame_paths output_dir (i + 1) n'
  end.

(** The call of [save_frame_as_png] made for the frame of index [i]
    returns 0. *)
Definition frame_saved (env : Env) (order : ByteOrder) (output_dir : string)
    (i : Z) (img : XcursorImage) : Prop :=
  fst (save_frame_as_png env order img (output_path output_dir i) (i + 1)) = 0.

(** It does so for each image of a list numbered from index [i] on. *)
Fixpoint frames_saved (env : Env) (order : ByteOrder) (output_dir : string)
    (i : Z) (images : list XcursorImage) : Prop :=
  match images with
  | [] => True
  | img :: rest =>
      frame_saved env order output_dir i img /\
      frames_saved env order output_dir (i + 1) rest
  end.

(** A trace that reports nothing on [stderr] and touches no frame file. *)
Definition quiet (t : list Event) : Prop :=
  stderr_of t = [] /\ opens "wb" t = [] /\ images_written t = [].

(** ** Sample runs *)

Definition sample_image_1 : XcursorImage :=
  {| size := 1; width := 1; height := 1; xhot := 0; yhot := 0; delay := 0;
     pixels := [0x80402010] |}.

Definition sample_image_2 : XcursorImage :=
  {| size := 2; width := 2; height := 1; xhot := 1; yhot := 0; delay := 100;
     pixels := [0xFF102030; 0x00FFFFFF] |}.

(** An environment in which the output directory exists, the cursor file
    loads as [images] with one comment, libpng works, and [fopen] fails
    exactly on the paths [unwritable] selects. *)
Definition sample_env (unwritable : string -> bool)
    (images : option XcursorImages) : Env :=
  {| access_R_OK := fun _ => true;
     stat_is_dir := fun _ => Some true;
     mkdir_ok := fun _ => true;
     fopen_ok := fun path _ => negb (unwritable path);
     strerror_errno := fun _ => "Permission denied";
     XcursorFileLoad :=
       fun _ => Some (Some [{| comment_type := 1; comment := "sample" |}],
                      images);
     png_create_write_struct_ok := fun _ => true;
     png_create_info_struct_ok := fun _ => true;
     png_longjmp := fun _ => false |}.

(** The manifest cannot be created; the frame files can. *)
Definition env_manifest_unwritable : Env :=
  sample_env (fun path => (path =? "out/cursor_info.txt")%string)
             (Some [sample_image_1; sample_image_2]).

(** The file of the second of three frames cannot be created. *)
Definition env_second_frame_unwritable : Env :=
  sample_env (fun path => (path =? "out/frame_002.png")%string)
             (Some [sample_image_1; sample_image_2; sample_image_1]).

(** The cursor file loads with an empty image list. *)
Definition env_no_images : Env := sample_env (fun _ => false) (Some []).

(** ** Further readings of a run *)

(** The texts written to [stdout]. *)
Definition stdout_of (t : list Event) : list string :=
  flat_map (fun e => match e with to_stdout s => [s] | _ => [] end) t.

(** The directories created. *)
Definition mkdirs (t : list Event) : list string :=
  flat_map (fun e => match e with mkdir path => [path] | _ => [] end) t.

(** The paths [fopen] succeeded on, in any mode. *)
Definition streams_opened (t : list Event) : list string :=
  flat_map (fun e => match e with fopen path _ true => [path] | _ => [] end) t.

(** The discipline of [FILE] streams along a trace, from the stream that is
    open at its start ([None] when there is none): a stream is opened only
    when no other is open, written and closed only while it is the open
    one.  The result is the stream left open; [None] when the discipline is
    broken. *)
Fixpoint stream_discipline (cur : option string) (t : list Event)
  : option (option string) :=
  match t with
  | [] => Some cur
  | e :: rest =>
      match e with
      | fopen path _ true =>
          match cur with
          | None => stream_discipline (Some path) rest
          | Some _ => None
          end
      | fclose path =>
          match cur with
          | Some p =>
              if (p =? path)%string then stream_discipline None rest else None
          | None => None
          end
      | fprintf path _ | png_written path _ _ _ | png_aborted path =>
          match cur with
          | Some p =>
              if (p =? path)%string then stream_discipline cur rest else None
          | None => None
          end
      | _ => stream_discipline cur rest
      end
  end.

(** The events of a stream of text: opening, writing text, closing. *)
Definition text_stream_event (e : Event) : Prop :=
  match e with
  | fopen _ _ _ | fprintf _ _ | fclose _ => True
  | _ => False
  end.

(** The pixel buffer of an image has [width * height] entries, and that
    product fits the 32-bit index of line 207. *)
Definition well_formed_image (image : XcursorImage) : Prop :=
  0 <= width image /\ 0 <= height image /\
  width image * height image < 2 ^ 32 /\
  Z.of_nat (List.length (pixels image)) = width image * height image.

(** The message [main] prints before it returns 0. *)
Definition success_message (output_dir : string) : string :=
  ("Successfully extracted cursor frames to '" ++ output_dir ++ "'"
   ++ newline)%string.

(** The number a run of decimal digits denotes, leading zeros allowed. *)
Definition number_of_digits (text : string) : option Z :=
  option_map Z.of_uint (NilEmpty.uint_of_string text).

(** ** The model at work *)

Example output_path_first : output_path "out" 0 = "out/frame_001.png"%string.
Proof. reflexivity. Qed.

Example output_path_wide : output_path "out" 1233 = "out/frame_1234.png"%string.
Proof. reflexivity. Qed.

Example separate_alpha_half_transparent :
  separate_alpha_pixel LITTLE_ENDIAN 0x80402010 = 0x80804020.
Proof. reflexivity. Qed.

Example separate_alpha_clamps :
  separate_alpha_pixel LITTLE_ENDIAN 0x10FF8020 = 0x10FFFFFF.
Proof. reflexivity. Qed.

Example sample_run_succeeds :
  let run :=
    main (sample_env (fun _ => false) (Some [sample_image_1; sample_image_2]))
      LITTLE_ENDIAN ["xcursor_extractor"; "left_ptr"; "out"]%string in
  fst run = 0 /\
  opens "w" (snd run) = ["out/cursor_info.txt"%string] /\
  images_written (snd run)
  = [("out/frame_001.png"%string, (1, 1, [[128; 64; 32; 128]]));
     ("out/frame_002.png"%string, (2, 1, [[16; 32; 48; 255; 0; 0; 0; 0]]))].
Proof. cbv zeta. repeat split. Qed.

(** ** Arithmetic of bytes *)

Lemma land_FF (z : Z) : Z.land z 0xFF = z mod 256.
Proof. change 0xFF with (Z.ones 8). now rewrite Z.land_ones by lia. Qed.

Lemma byte_range (z : Z) : 0 <= Z.land z 0xFF <= 255.
Proof. rewrite land_FF. pose proof (Z.mod_pos_bound z 256). lia. Qed.

Lemma uint_small (z : Z) : 0 <= z < 2 ^ 32 -> uint z = z.
Proof. intros H. unfold uint, UINT_WIDTH. now apply Z.mod_small. Qed.

(** [lor] of a value below [2^n] with a multiple of [2^n] is their sum. *)
Lemma lor_shiftl_add (lo hi n : Z) :
  0 <= n -> 0 <= lo < 2 ^ n ->
  Z.lor lo (Z.shiftl hi n) = lo + hi * 2 ^ n.
Proof.
  intros Hn Hlo.
  pose proof (Z.add_lor_land lo (Z.shiftl hi n)) as Hsum.
  rewrite (Z.shiftl_mul_pow2 hi n) in Hsum at 3 by lia.
  enough (Z.land lo (Z.shiftl hi n) = 0) by lia.
  apply Z.bits_inj'. intros i Hi.
  rewrite Z.land_spec, Z.bits_0.
  destruct (Z.ltb_spec i n) as [Hlt|Hge].
  - rewrite Z.shiftl_spec_low by lia. apply andb_false_r.
  - replace (Z.testbit lo i) with false; [reflexivity|].
    symmetry. destruct (Z.eq_dec lo 0) as [->|Hne]; [apply Z.bits_0|].
    apply Z.bits_above_log2; [lia|].
    apply Z.lt_le_trans with n; [|lia].
    apply Z.log2_lt_pow2; lia.
Qed.

(** The packing as a positional number in base 256. *)
Lemma pack_sum (b0 b1 b2 b3 : Z) :
  0 <= b0 <= 255 -> 0 <= b1 <= 255 -> 0 <= b2 <= 255 ->
  Z.lor (Z.lor (Z.lor b0 (Z.shiftl b1 8)) (Z.shiftl b2 16)) (Z.shiftl b3 24)
  = b0 + b1 * 2 ^ 8 + b2 * 2 ^ 16 + b3 * 2 ^ 24.
Proof.
  intros H0 H1 H2.
  rewrite (lor_shiftl_add b0 b1 8) by lia.
  rewrite (lor_shiftl_add _ b2 16) by lia.
  rewrite (lor_shiftl_add _ b3 24) by lia.
  reflexivity.
Qed.

(** The four bytes of a positional number in base 256. *)
Lemma bytes_of_sum (b0 b1 b2 b3 : Z) :
  0 <= b0 <= 255 -> 0 <= b1 <= 255 -> 0 <= b2 <= 255 -> 0 <= b3 <= 255 ->
  let p := b0 + b1 * 2 ^ 8 + b2 * 2 ^ 16 + b3 * 2 ^ 24 in
  Z.land p 0xFF = b0 /\ Z.land (Z.shiftr p 8) 0xFF = b1 /\
  Z.land (Z.shiftr p 16) 0xFF = b2 /\ Z.land (Z.shiftr p 24) 0xFF = b3.
Proof.
  intros H0 H1 H2 H3 p. subst p.
  rewrite !land_FF, !Z.shiftr_div_pow2 by lia.
  change (2 ^ 8) with 256. change (2 ^ 16) with 65536.
  change (2 ^ 24) with 16777216.
  repeat split.
  - symmetry. apply (Z.mod_unique_pos _ _ (b1 + b2 * 256 + b3 * 65536)); lia.
  - replace ((b0 + b1 * 256 + b2 * 65536 + b3 * 16777216) / 256)
      with (b1 + b2 * 256 + b3 * 65536)
      by (apply (Z.div_unique_pos _ _ _ b0); lia).
    symmetry. apply (Z.mod_unique_pos _ _ (b2 + b3 * 256)); lia.
  - replace ((b0 + b1 * 256 + b2 * 65536 + b3 * 16777216) / 65536)
      with (b2 + b3 * 256)
      by (apply (Z.div_unique_pos _ _ _ (b0 + b1 * 256)); lia).
    symmetry. apply (Z.mod_unique_pos _ _ b3); lia.
  - replace ((b0 + b1 * 256 + b2 * 65536 + b3 * 16777216) / 16777216)
      with b3
      by (apply (Z.div_unique_pos _ _ _ (b0 + b1 * 256 + b2 * 65536)); lia).
    apply Z.mod_small; lia.
Qed.

(** A 32-bit value is the positional number of its four bytes. *)
Lemma uint_bytes (p : Z) :
  is_uint p ->
  p = Z.land p 0xFF + Z.land (Z.shiftr p 8) 0xFF * 2 ^ 8
      + Z.land (Z.shiftr p 16) 0xFF * 2 ^ 16
      + Z.land (Z.shiftr p 24) 0xFF * 2 ^ 24.
Proof.
  unfold is_uint, UINT_WIDTH. intros Hp.
  rewrite !land_FF, !Z.shiftr_div_pow2 by lia.
  change (2 ^ 8) with 256. change (2 ^ 16) with 65536.
  change (2 ^ 24) with 16777216. change (2 ^ 32) with 4294967296 in Hp.
  pose proof (Z.div_mod p 256 ltac:(lia)).
  pose proof (Z.mod_pos_bound p 256 ltac:(lia)).
  pose proof (Z.div_mod (p / 256) 256 ltac:(lia)).
  pose proof (Z.mod_pos_bound (p / 256) 256 ltac:(lia)).
  pose proof (Z.div_mod (p / 256 / 256) 256 ltac:(lia)).
  pose proof (Z.mod_pos_bound (p / 256 / 256) 256 ltac:(lia)).
  replace (p / 65536) with (p / 256 / 256)
    by (rewrite Z.div_div by lia; reflexivity).
  replace (p / 16777216) with (p / 256 / 256 / 256)
    by (rewrite !Z.div_div by lia; reflexivity).
  assert (0 <= p / 256 / 256 / 256 < 256).
  { split; [repeat apply Z.div_pos; lia|].
    repeat (apply Z.div_lt_upper_bound; [lia|]). lia. }
  rewrite (Z.mod_small (p / 256 / 256 / 256)) by lia.
  lia.
Qed.

(** ** The scaling step and the clamp *)

Lemma scaled_exact (c a : Z) :
  0 <= c <= 255 -> 1 <= a <= 255 ->
  scaled c a = unpremultiply_channel c a /\
  0 <= unpremultiply_channel c a <= 65152.
Proof.
  intros Hc Ha. unfold scaled, unpremultiply_channel.
  assert (Hh : 0 <= a / 2 <= 127).
  { split; [apply Z.div_pos; lia|].
    apply Z.lt_succ_r. apply Z.div_lt_upper_bound; lia. }
  assert (Hq : 0 <= (c * 255 + a / 2) / a <= 65152).
  { split; [apply Z.div_pos; lia|].
    apply Z.lt_succ_r. apply Z.div_lt_upper_bound; nia. }
  rewrite (uint_small (c * 255)) by lia.
  rewrite (uint_small (c * 255 + a / 2)) by lia.
  rewrite uint_small by lia.
  split; [reflexivity | exact Hq].
Qed.

Lemma clamp_step (v : Z) :
  0 <= v -> (if 255 <? v then 255 else v) = clamp255 v.
Proof. intros Hv. unfold clamp255. destruct (Z.ltb_spec 255 v); lia. Qed.

Lemma clamp255_range (v : Z) : 0 <= clamp255 v <= 255.
Proof. unfold clamp255. lia. Qed.

(** The shifts and the final [lor] of lines 278-282 never wrap. *)
Lemma repack_exact (b0 b1 b2 b3 : Z) :
  0 <= b0 <= 255 -> 0 <= b1 <= 255 -> 0 <= b2 <= 255 -> 0 <= b3 <= 255 ->
  uint (Z.lor (Z.lor (Z.lor b0 (uint (Z.shiftl b1 8))) (uint (Z.shiftl b2 16)))
              (uint (Z.shiftl b3 24)))
  = Z.lor (Z.lor (Z.lor b0 (Z.shiftl b1 8)) (Z.shiftl b2 16)) (Z.shiftl b3 24).
Proof.
  intros H0 H1 H2 H3.
  rewrite (uint_small (Z.shiftl b1 8)) by (rewrite Z.shiftl_mul_pow2; lia).
  rewrite (uint_small (Z.shiftl b2 16)) by (rewrite Z.shiftl_mul_pow2; lia).
  rewrite (uint_small (Z.shiftl b3 24)) by (rewrite Z.shiftl_mul_pow2; lia).
  apply uint_small. rewrite pack_sum by lia. lia.
Qed.

(** The body of [separate_alpha_pixel] below the zero test, on four bytes. *)
Lemma channel_step (c a : Z) :
  0 <= c <= 255 -> 1 <= a <= 255 ->
  (if 255 <? uint (uint (uint (c * 255) + a / 2) / a) then 255
   else uint (uint (uint (c * 255) + a / 2) / a))
  = clamp255 (unpremultiply_channel c a).
Proof.
  intros Hc Ha. destruct (scaled_exact c a Hc Ha) as [He Hr].
  unfold scaled in He. rewrite He. apply clamp_step. lia.
Qed.

(** Replaces each byte [x & 0xFF] of the goal by a variable known to lie
    in [0,255]. *)
Ltac name_bytes :=
  repeat match goal with
    | |- context [Z.land ?x 0xFF] =>
        let H := fresh "Hbyte" in
        pose proof (byte_range x) as H;
        generalize dependent (Z.land x 0xFF); intros
    end.

(** Takes the [else] branch of the test [alpha == 0] when the context
    excludes the other. *)
Ltac skip_zero_test :=
  match goal with
  | |- context [Z.eqb ?a 0] =>
      destruct (Z.eqb_spec a 0); [contradiction|]
  end.

(** [separate_alpha_pixel] on a pixel of non-zero alpha, channel by
    channel. *)
Lemma separate_alpha_pixel_nonzero (order : ByteOrder) (pixel : Z) :
  alpha_of order pixel <> 0 ->
  separate_alpha_pixel order pixel
  = pack order (alpha_of order pixel)
      (clamp255 (unpremultiply_channel (red_of order pixel) (alpha_of order pixel)))
      (clamp255 (unpremultiply_channel (green_of order pixel) (alpha_of order pixel)))
      (clamp255 (unpremultiply_channel (blue_of order pixel) (alpha_of order pixel))).
Proof.
  intros Ha.
  unfold separate_alpha_pixel, pack.
  destruct order; cbn [alpha_of red_of green_of blue_of] in *; cbv zeta;
    skip_zero_test; name_bytes;
    rewrite !channel_step by lia;
    apply repack_exact; auto using clamp255_range; lia.
Qed.

(** The early return of lines 262-265. *)
Lemma separate_alpha_pixel_zero (order : ByteOrder) (pixel : Z) :
  alpha_of order pixel = 0 ->
  separate_alpha_pixel order pixel = 0.
Proof.
  intros Ha. unfold separate_alpha_pixel.
  destruct order; cbn [alpha_of] in Ha; cbv zeta; rewrite Ha; reflexivity.
Qed.

(** The channels of a packed pixel. *)
Lemma channels_of_pack (order : ByteOrder) (a r g b : Z) :
  0 <= a <= 255 -> 0 <= r <= 255 -> 0 <= g <= 255 -> 0 <= b <= 255 ->
  alpha_of order (pack order a r g b) = a /\
  red_of order (pack order a r g b) = r /\
  green_of order (pack order a r g b) = g /\
  blue_of order (pack order a r g b) = b.
Proof.
  intros Ha Hr Hg Hb. unfold pack.
  destruct order; cbn [alpha_of red_of green_of blue_of];
    rewrite pack_sum by lia.
  - destruct (bytes_of_sum b g r a) as (E0 & E1 & E2 & E3); auto.
  - destruct (bytes_of_sum a r g b) as (E0 & E1 & E2 & E3); auto.
Qed.

(** A 32-bit pixel is the packing of its own channels. *)
Lemma pack_channels (order : ByteOrder) (pixel : Z) :
  is_uint pixel ->
  pack order (alpha_of order pixel) (red_of order pixel)
       (green_of order pixel) (blue_of order pixel) = pixel.
Proof.
  intros Hp. unfold pack.
  destruct order; cbn [alpha_of red_of green_of blue_of];
    rewrite pack_sum by apply byte_range;
    symmetry; apply uint_bytes; exact Hp.
Qed.

Lemma unpremultiply_full (a : Z) :
  1 <= a -> unpremultiply_channel a a = 255.
Proof.
  intros Ha. unfold unpremultiply_channel.
  symmetry. apply (Z.div_unique_pos _ _ _ (a / 2)); [|lia].
  split; [apply Z.div_pos; lia | apply Z.div_lt_upper_bound; lia].
Qed.

Lemma unpremultiply_opaque (c : Z) :
  0 <= c -> unpremultiply_channel c 255 = c.
Proof.
  intros Hc. unfold unpremultiply_channel. change (255 / 2) with 127.
  symmetry. apply (Z.div_unique_pos _ _ _ 127); lia.
Qed.

Lemma unpremultiply_bounded (c a : Z) :
  0 <= c <= a -> 1 <= a -> 0 <= unpremultiply_channel c a <= 255.
Proof.
  intros Hc Ha. unfold unpremultiply_channel.
  assert (0 <= a / 2 < a).
  { split; [apply Z.div_pos; lia | apply Z.div_lt_upper_bound; lia]. }
  split; [apply Z.div_pos; lia|].
  apply Z.lt_succ_r. apply Z.div_lt_upper_bound; nia.
Qed.

(** ** Claims on the pixel transform *)

(** C1: on a pixel of alpha [a <> 0], each colour channel [c] becomes the
    round-half-up quotient [(c*255 + a/2) / a] clamped to [0,255], and the
    result is repacked in the layout the channels were read in, with the
    alpha channel as read. *)
Theorem C1_unpremultiply_rounds_clamps_repacks (order : ByteOrder) (pixel : Z) :
  alpha_of order pixel <> 0 ->
  let a := alpha_of order pixel in
  let r := clamp255 ((red_of order pixel * 255 + a / 2) / a) in
  let g := clamp255 ((green_of order pixel * 255 + a / 2) / a) in
  let b := clamp255 ((blue_of order pixel * 255 + a / 2) / a) in
  separate_alpha_pixel order pixel = pack order a r g b /\
  red_of order (separate_alpha_pixel order pixel) = r /\
  green_of order (separate_alpha_pixel order pixel) = g /\
  blue_of order (separate_alpha_pixel order pixel) = b /\
  0 <= r <= 255 /\ 0 <= g <= 255 /\ 0 <= b <= 255.
Proof.
  intros Ha a r g b.
  pose proof (separate_alpha_pixel_nonzero order pixel Ha) as E.
  fold a in E. unfold unpremultiply_channel in E. fold r g b in E.
  assert (Hra : 0 <= a <= 255) by (destruct order; apply byte_range).
  destruct (channels_of_pack order a r g b Hra (clamp255_range _)
              (clamp255_range _) (clamp255_range _)) as (_ & Er & Eg & Eb).
  rewrite E. repeat split; auto; apply clamp255_range.
Qed.

Lemma C1_witness :
  alpha_of LITTLE_ENDIAN 0x80402010 <> 0 /\
  separate_alpha_pixel LITTLE_ENDIAN 0x80402010 = 0x80804020.
Proof.
  split; [vm_compute; discriminate|].
  destruct (C1_unpremultiply_rounds_clamps_repacks LITTLE_ENDIAN 0x80402010)
    as [E _]; [vm_compute; discriminate|].
  rewrite E. reflexivity.
Defined.

(** C2: a pixel whose alpha channel is 0 is mapped to the all-zero pixel,
    whatever its colour channels hold. *)
Theorem C2_zero_alpha_gives_zero_pixel (order : ByteOrder) (pixel : Z) :
  alpha_of order pixel = 0 ->
  separate_alpha_pixel order pixel = 0.
Proof. exact (separate_alpha_pixel_zero order pixel). Qed.

Lemma C2_witness :
  alpha_of LITTLE_ENDIAN 0x00FFFFFF = 0 /\
  separate_alpha_pixel LITTLE_ENDIAN 0x00FFFFFF = 0.
Proof.
  split; [reflexivity|].
  apply (C2_zero_alpha_gives_zero_pixel LITTLE_ENDIAN 0x00FFFFFF).
  reflexivity.
Defined.

(** C3: for every alpha [a] in [1,255], the fully saturated premultiplied
    pixel [r = g = b = a] is mapped to [r = g = b = 255] with alpha still
    [a]. *)
Theorem C3_saturated_pixel_becomes_white (order : ByteOrder) (a : Z) :
  1 <= a <= 255 ->
  let out := separate_alpha_pixel order (pack order a a a a) in
  out = pack order a 255 255 255 /\
  red_of order out = 255 /\ green_of order out = 255 /\
  blue_of order out = 255 /\ alpha_of order out = a.
Proof.
  intros Ha out.
  destruct (channels_of_pack order a a a a) as (Ea & Er & Eg & Eb); try lia.
  assert (E : out = pack order a 255 255 255).
  { unfold out. rewrite separate_alpha_pixel_nonzero by (rewrite Ea; lia).
    rewrite Ea, Er, Eg, Eb, unpremultiply_full by lia. reflexivity. }
  destruct (channels_of_pack order a 255 255 255) as (Fa & Fr & Fg & Fb);
    try lia.
  rewrite E. auto.
Qed.

Lemma C3_witness :
  1 <= 7 <= 255 /\
  separate_alpha_pixel BIG_ENDIAN (pack BIG_ENDIAN 7 7 7 7)
  = pack BIG_ENDIAN 7 255 255 255.
Proof.
  split; [lia|].
  apply (C3_saturated_pixel_becomes_white BIG_ENDIAN 7). lia.
Defined.

(** C4: on a 32-bit pixel whose alpha channel is 255 the transform is the
    identity. *)
Theorem C4_opaque_pixel_unchanged (order : ByteOrder) (pixel : Z) :
  is_uint pixel ->
  alpha_of order pixel = 255 ->
  separate_alpha_pixel order pixel = pixel.
Proof.
  intros Hp Ha.
  rewrite separate_alpha_pixel_nonzero by lia.
  rewrite Ha.
  assert (Hr : 0 <= red_of order pixel <= 255) by (destruct order; apply byte_range).
  assert (Hg : 0 <= green_of order pixel <= 255) by (destruct order; apply byte_range).
  assert (Hb : 0 <= blue_of order pixel <= 255) by (destruct order; apply byte_range).
  rewrite !unpremultiply_opaque by lia.
  unfold clamp255. rewrite !Z.min_r, !Z.max_r by lia.
  rewrite <- Ha. apply pack_channels. exact Hp.
Qed.

Lemma C4_witness :
  is_uint 0xFF123456 /\ alpha_of LITTLE_ENDIAN 0xFF123456 = 255 /\
  separate_alpha_pixel LITTLE_ENDIAN 0xFF123456 = 0xFF123456.
Proof.
  assert (H : is_uint 0xFF123456) by (unfold is_uint, UINT_WIDTH; lia).
  split; [exact H|]. split; [reflexivity|].
  apply (C4_opaque_pixel_unchanged LITTLE_ENDIAN 0xFF123456 H). reflexivity.
Defined.

(** C5: on premultiplied input (alpha [a <> 0], every colour channel at
    most [a]) the value computed at lines 268-270 never exceeds 255, so
    none of the three clamp tests of lines 273-275 fires and the result is
    packed from the unclamped quotients. *)
Theorem C5_clamp_unreachable_on_premultiplied (order : ByteOrder) (pixel : Z) :
  let a := alpha_of order pixel in
  let r := red_of order pixel in
  let g := green_of order pixel in
  let b := blue_of order pixel in
  a <> 0 -> r <= a -> g <= a -> b <= a ->
  (scaled r a <= 255 /\ scaled g a <= 255 /\ scaled b a <= 255) /\
  ((255 <? scaled r a) = false /\ (255 <? scaled g a) = false /\
   (255 <? scaled b a) = false) /\
  (scaled r a = (r * 255 + a / 2) / a /\ scaled g a = (g * 255 + a / 2) / a /\
   scaled b a = (b * 255 + a / 2) / a) /\
  separate_alpha_pixel order pixel = pack order a (scaled r a) (scaled g a) (scaled b a).
Proof.
  intros a r g b Ha Hr Hg Hb.
  assert (Ra : 0 <= a <= 255) by (destruct order; apply byte_range).
  assert (Rr : 0 <= r <= 255) by (destruct order; apply byte_range).
  assert (Rg : 0 <= g <= 255) by (destruct order; apply byte_range).
  assert (Rb : 0 <= b <= 255) by (destruct order; apply byte_range).
  destruct (scaled_exact r a) as [Er _]; try lia.
  destruct (scaled_exact g a) as [Eg _]; try lia.
  destruct (scaled_exact b a) as [Eb _]; try lia.
  pose proof (unpremultiply_bounded r a ltac:(lia) ltac:(lia)) as Br.
  pose proof (unpremultiply_bounded g a ltac:(lia) ltac:(lia)) as Bg.
  pose proof (unpremultiply_bounded b a ltac:(lia) ltac:(lia)) as Bb.
  rewrite Er, Eg, Eb.
  split; [lia|].
  split; [repeat split; apply Z.ltb_ge; lia|].
  split; [repeat split; reflexivity|].
  unfold a, r, g, b. rewrite separate_alpha_pixel_nonzero by exact Ha.
  fold a r g b. unfold clamp255.
  rewrite !Z.min_r, !Z.max_r by lia. reflexivity.
Qed.

Lemma C5_witness :
  scaled (red_of LITTLE_ENDIAN 0x80402010) (alpha_of LITTLE_ENDIAN 0x80402010)
  <= 255.
Proof.
  assert (Ha : alpha_of LITTLE_ENDIAN 0x80402010 <> 0)
    by (vm_compute; discriminate).
  assert (Hr : red_of LITTLE_ENDIAN 0x80402010 <= alpha_of LITTLE_ENDIAN 0x80402010)
    by (vm_compute; discriminate).
  assert (Hg : green_of LITTLE_ENDIAN 0x80402010 <= alpha_of LITTLE_ENDIAN 0x80402010)
    by (vm_compute; discriminate).
  assert (Hb : blue_of LITTLE_ENDIAN 0x80402010 <= alpha_of LITTLE_ENDIAN 0x80402010)
    by (vm_compute; discriminate).
  exact (proj1 (proj1
    (C5_clamp_unreachable_on_premultiplied LITTLE_ENDIAN 0x80402010 Ha Hr Hg Hb))).
Defined.

(** C9: the alpha channel of the result is the alpha channel of the input,
    for every pixel, zero alpha included. *)
Theorem C9_alpha_channel_preserved (order : ByteOrder) (pixel : Z) :
  alpha_of order (separate_alpha_pixel order pixel) = alpha_of order pixel.
Proof.
  destruct (Z.eq_dec (alpha_of order pixel) 0) as [E|N].
  - rewrite separate_alpha_pixel_zero by exact E. rewrite E. destruct order; reflexivity.
  - rewrite separate_alpha_pixel_nonzero by exact N.
    assert (Ra : 0 <= alpha_of order pixel <= 255)
      by (destruct order; apply byte_range).
    exact (proj1 (channels_of_pack order _ _ _ _ Ra (clamp255_range _)
                    (clamp255_range _) (clamp255_range _))).
Qed.

(** ** Reading traces *)

Local Open Scope list_scope.

Lemma stderr_of_app (t u : list Event) :
  stderr_of (t ++ u) = stderr_of t ++ stderr_of u.
Proof. apply flat_map_app. Qed.

Lemma opens_app (mode : string) (t u : list Event) :
  opens mode (t ++ u) = opens mode t ++ opens mode u.
Proof. apply flat_map_app. Qed.

Lemma images_written_app (t u : list Event) :
  images_written (t ++ u) = images_written t ++ images_written u.
Proof. apply flat_map_app. Qed.

(** ** The frame writer *)

(** [save_frame_as_png] returns 0 after writing the whole image, or 1
    without having written it; it opens its file once in either case. *)
Lemma save_frame_as_png_cases (env : Env) (order : ByteOrder)
    (image : XcursorImage) (filename : string) (frame_num : Z) :
  let run := save_frame_as_png env order image filename frame_num in
  (fst run = 0 /\
   snd run = [fopen filename "wb" true;
              png_written filename (width image) (height image)
                (convert_rows order image);
              fclose filename]) \/
  (fst run = 1 /\ images_written (snd run) = [] /\
   opens "wb" (snd run) = [filename]).
Proof.
  unfold save_frame_as_png.
  destruct (fopen_ok env filename "wb"); cbn; [|right; auto].
  destruct (png_create_write_struct_ok env filename); cbn; [|right; auto].
  destruct (png_create_info_struct_ok env filename); cbn; [|right; auto].
  destruct (png_longjmp env filename); cbn; [right; auto | left; auto].
Qed.

(** One turn of the frame loop. *)
Lemma save_frames_step (env : Env) (order : ByteOrder) (output_dir : string)
    (i : Z) (img : XcursorImage) (rest : list XcursorImage) :
  let s := save_frame_as_png env order img (output_path output_dir i) (i + 1) in
  let next := save_frames env order output_dir (i + 1) rest in
  save_frames env order output_dir i (img :: rest)
  = if fst s =? 0
    then (fst next,
          snd s
          ++ to_stdout
               ("Saved frame " ++ fmt_d (i + 1) ++ ": "
                ++ fmt_d (as_int (width img)) ++ "x"
                ++ fmt_d (as_int (height img))
                ++ " (size=" ++ fmt_d (as_int (size img))
                ++ ", delay=" ++ fmt_d (as_int (delay img)) ++ "ms) -> "
                ++ output_path output_dir i ++ newline)%string
          :: snd next)
    else (1, snd s
             ++ [to_stderr ("Error: Failed to save frame " ++ fmt_d (i + 1)
                            ++ newline)%string]).
Proof.
  cbn [save_frames]. unfold bind at 1. cbv zeta.
  destruct (fst (save_frame_as_png env order img (output_path output_dir i)
                   (i + 1)) =? 0); reflexivity.
Qed.

(** The loop returns 0 or 1; it returns 0 exactly when every call of
    [save_frame_as_png] does, and then writes nothing to [stderr]; when it
    returns 1 it has written to [stderr]. *)
Lemma save_frames_result (env : Env) (order : ByteOrder) (output_dir : string)
    (images : list XcursorImage) :
  forall i : Z,
    let run := save_frames env order output_dir i images in
    (fst run = 0 /\ frames_saved env order output_dir i images /\
     stderr_of (snd run) = []) \/
    (fst run = 1 /\ ~ frames_saved env order output_dir i images /\
     stderr_of (snd run) <> []).
Proof.
  induction images as [|img rest IH]; intros i.
  - left. cbn. auto.
  - cbv zeta. rewrite save_frames_step. cbv zeta.
    cbn [frames_saved]. unfold frame_saved.
    destruct (save_frame_as_png_cases env order img (output_path output_dir i)
                (i + 1)) as [[E0 Et]|[E1 _]].
    + rewrite E0. cbn [Z.eqb fst snd].
      destruct (IH (i + 1)) as [(R0 & Hs & He)|(R1 & Hs & He)].
      * left. repeat split; auto.
        rewrite stderr_of_app, Et. cbn. exact He.
      * right. repeat split; auto; [tauto|].
        rewrite stderr_of_app, Et. cbn. exact He.
    + rewrite E1. cbn [Z.eqb fst snd]. right. repeat split; auto.
      * intros [H _]. discriminate H.
      * rewrite stderr_of_app. intros H. apply app_eq_nil in H.
        destruct H as [_ H]. discriminate H.
Qed.

(** Frames that are all saved, followed by more frames: the loop does the
    former in full and goes on with the latter. *)
Lemma save_frames_saved_prefix (env : Env) (order : ByteOrder)
    (output_dir : string) (pre rest : list XcursorImage) :
  forall i : Z,
    frames_saved env order output_dir i pre ->
    let done := save_frames env order output_dir i pre in
    let next :=
      save_frames env order output_dir (i + Z.of_nat (List.length pre)) rest in
    save_frames env order output_dir i (pre ++ rest)
    = (fst next, snd done ++ snd next) /\
    opens "wb" (snd done) = frame_paths output_dir i (List.length pre) /\
    images_written (snd done) = frame_files order output_dir i pre.
Proof.
  induction pre as [|img pre IH]; intros i Hs.
  - cbn. rewrite Z.add_0_r. repeat split. apply surjective_pairing.
  - destruct Hs as [H0 Hs]. unfold frame_saved in H0.
    cbv zeta. rewrite <- app_comm_cons, !save_frames_step. cbv zeta.
    rewrite H0. cbn [Z.eqb fst snd].
    destruct (IH (i + 1) Hs) as (E & Eo & Ew). cbv zeta in E.
    replace (i + Z.of_nat (List.length (img :: pre)))
      with (i + 1 + Z.of_nat (List.length pre))
      by (cbn [List.length]; lia).
    rewrite E. cbn [fst snd].
    destruct (save_frame_as_png_cases env order img (output_path output_dir i)
                (i + 1)) as [[_ Et]|[E1 _]]; [|congruence].
    rewrite Et. cbn [app].
    repeat split.
    + cbn [opens flat_map String.eqb Ascii.eqb Bool.eqb app].
      fold (opens "wb" (snd (save_frames env order output_dir (i + 1) pre))).
      rewrite Eo. reflexivity.
    + cbn [images_written flat_map app].
      fold (images_written (snd (save_frames env order output_dir (i + 1) pre))).
      rewrite Ew. reflexivity.
Qed.

Lemma frame_paths_snoc (output_dir : string) (n : nat) :
  forall i : Z,
    frame_paths output_dir i (S n)
    = frame_paths output_dir i n ++ [output_path output_dir (i + Z.of_nat n)].
Proof.
  induction n as [|n IH]; intros i.
  - cbn. rewrite Z.add_0_r. reflexivity.
  - change (frame_paths output_dir i (S (S n)))
      with (output_path output_dir i :: frame_paths output_dir (i + 1) (S n)).
    rewrite IH. cbn [frame_paths app].
    replace (i + 1 + Z.of_nat n) with (i + Z.of_nat (S n)) by lia.
    reflexivity.
Qed.

(** ** The manifest *)

Lemma quiet_app (t u : list Event) : quiet t -> quiet u -> quiet (t ++ u).
Proof.
  unfold quiet. intros (T1 & T2 & T3) (U1 & U2 & U3).
  rewrite stderr_of_app, opens_app, images_written_app.
  rewrite T1, T2, T3, U1, U2, U3. auto.
Qed.

Lemma quiet_bind {A B : Type} (m : IO A) (k : A -> IO B) :
  quiet (snd m) -> (forall a, quiet (snd (k a))) -> quiet (snd (bind m k)).
Proof. intros Hm Hk. unfold bind. cbn [snd]. apply quiet_app; auto. Qed.

Lemma quiet_ret {A : Type} (a : A) : quiet (snd (ret a)).
Proof. unfold quiet. cbn. auto. Qed.

Lemma quiet_fprintf (path text : string) : quiet (snd (emit (fprintf path text))).
Proof. unfold quiet. cbn. auto. Qed.

Lemma quiet_fclose (path : string) : quiet (snd (emit (fclose path))).
Proof. unfold quiet. cbn. auto. Qed.

Lemma quiet_fopen_w (path : string) (ok : bool) :
  quiet (snd (emit (fopen path "w" ok))).
Proof. unfold quiet. cbn. auto. Qed.

Create HintDb quiet.
#[local] Hint Resolve quiet_ret quiet_fprintf quiet_fclose quiet_fopen_w : quiet.

(** The manifest loops only write to the manifest. *)
Lemma write_frame_details_quiet (info_file : string)
    (images : list XcursorImage) :
  forall i : Z, quiet (snd (write_frame_details info_file i images)).
Proof.
  induction images as [|img rest IH]; intros i; cbn [write_frame_details].
  - auto with quiet.
  - apply quiet_bind; auto with quiet.
Qed.

Lemma write_comments_quiet (info_file : string)
    (comments : list XcursorComment) :
  quiet (snd (write_comments info_file comments)).
Proof.
  induction comments as [|c rest IH]; cbn [write_comments].
  - auto with quiet.
  - apply quiet_bind; auto with quiet.
Qed.

#[local] Hint Resolve write_frame_details_quiet write_comments_quiet : quiet.

(** Whether or not the manifest can be created, writing it reports
    nothing on [stderr] and touches no frame file. *)
Lemma write_info_file_quiet (env : Env) (input_file output_dir : string)
    (comments : option XcursorComments) (images : XcursorImages) :
  quiet (snd (write_info_file env input_file output_dir comments images)).
Proof.
  unfold write_info_file. cbv zeta.
  destruct (fopen_ok env _ "w"); [|auto with quiet].
  repeat (apply quiet_bind; [solve [auto with quiet]|intros _]).
  apply quiet_bind; [|intros _; auto with quiet].
  destruct comments as [cs|]; [|auto with quiet].
  destruct (0 <? ncomment cs); [|auto with quiet].
  apply quiet_bind; auto with quiet.
Qed.

(** ** The extraction and the process *)

(** With at least one image loaded, the extraction is the manifest
    followed by the frame loop, and returns what the loop returns. *)
Lemma extract_cursor_frames_loaded (env : Env) (order : ByteOrder)
    (input_file output_dir : string) (comments : option XcursorComments)
    (images : XcursorImages) :
  fopen_ok env input_file "rb" = true ->
  XcursorFileLoad env input_file = Some (comments, Some images) ->
  images <> [] ->
  extract_cursor_frames env order input_file output_dir
  = (fst (save_frames env order output_dir 0 images),
     [fopen input_file "rb" true; fclose input_file;
      to_stdout ("Found " ++ fmt_d (nimage images)
                 ++ " frame(s) in cursor file" ++ newline)%string]
     ++ snd (write_info_file env input_file output_dir comments images)
     ++ snd (save_frames env order output_dir 0 images)).
Proof.
  intros Hopen Hload Hne. unfold extract_cursor_frames.
  rewrite Hopen, Hload. cbn [negb].
  assert (E : (nimage images =? 0) = false).
  { apply Z.eqb_neq. unfold nimage. destruct images; [congruence|].
    cbn [List.length]. lia. }
  rewrite E. reflexivity.
Qed.

(** Without an image the extraction stops before it opens any file for
    writing. *)
Lemma extract_cursor_frames_no_image (env : Env) (order : ByteOrder)
    (input_file output_dir : string) (comments : option XcursorComments)
    (images : option XcursorImages) :
  fopen_ok env input_file "rb" = true ->
  XcursorFileLoad env input_file = Some (comments, images) ->
  images = None \/ (exists l, images = Some l /\ nimage l = 0) ->
  extract_cursor_frames env order input_file output_dir
  = (1, [fopen input_file "rb" true; fclose input_file;
         to_stderr ("Error: No images found in cursor file" ++ newline)%string]).
Proof.
  intros Hopen Hload Hno. unfold extract_cursor_frames.
  rewrite Hopen, Hload. cbn [negb].
  destruct Hno as [->|(l & -> & Hl)]; [reflexivity|].
  rewrite Hl. reflexivity.
Qed.

(** [extract_cursor_frames] returns 0 or 1.  It returns 0 exactly when the
    cursor file opens and loads with at least one image and every frame is
    saved, and then writes nothing to [stderr]; when it returns 1 it has
    written to [stderr]. *)
Lemma extract_cursor_frames_result (env : Env) (order : ByteOrder)
    (input_file output_dir : string) :
  let run := extract_cursor_frames env order input_file output_dir in
  let all_well :=
    exists comments images,
      fopen_ok env input_file "rb" = true /\
      XcursorFileLoad env input_file = Some (comments, Some images) /\
      images <> [] /\ frames_saved env order output_dir 0 images in
  (fst run = 0 /\ all_well /\ stderr_of (snd run) = []) \/
  (fst run = 1 /\ ~ all_well /\ stderr_of (snd run) <> []).
Proof.
  cbv zeta.
  destruct (fopen_ok env input_file "rb") eqn:Hopen.
  2:{ right. unfold extract_cursor_frames. rewrite Hopen.
      repeat split; [|cbn; discriminate].
      intros (c & l & H & _). discriminate H. }
  destruct (XcursorFileLoad env input_file) as [[comments images]|] eqn:Hload.
  2:{ right. unfold extract_cursor_frames. rewrite Hopen, Hload.
      repeat split; [|cbn; discriminate].
      intros (c & l & _ & H & _). discriminate H. }
  destruct images as [[|img rest]|].
  - right.
    rewrite (extract_cursor_frames_no_image env order input_file output_dir
               comments (Some []) Hopen Hload)
      by (right; exists []; auto).
    repeat split; [|cbn; discriminate].
    intros (c & l & _ & H & Hne & _). congruence.
  - rewrite (extract_cursor_frames_loaded env order input_file output_dir
               comments (img :: rest) Hopen Hload) by discriminate.
    cbn [fst snd].
    destruct (write_info_file_quiet env input_file output_dir comments
                (img :: rest)) as (Q & _).
    rewrite !stderr_of_app, Q. cbn [stderr_of flat_map app].
    destruct (save_frames_result env order output_dir (img :: rest) 0)
      as [(R & Hs & He)|(R & Hs & He)].
    + left. split; [exact R|]. split; [|exact He].
      exists comments, (img :: rest).
      split; [reflexivity|]. split; [reflexivity|].
      split; [discriminate | exact Hs].
    + right. split; [exact R|]. split; [|exact He].
      intros (c & l & _ & H & _ & Hl).
      assert (l = img :: rest) by congruence. subst l. exact (Hs Hl).
  - right.
    rewrite (extract_cursor_frames_no_image env order input_file output_dir
               comments None Hopen Hload) by (left; reflexivity).
    repeat split; [|cbn; discriminate].
    intros (c & l & _ & H & _). congruence.
Qed.

(** [create_directory] returns 0, or 1 after a report on [stderr]. *)
Lemma create_directory_result (env : Env) (path : string) :
  let run := create_directory env path in
  (fst run = 0 /\ stderr_of (snd run) = []) \/
  (fst run = 1 /\ stderr_of (snd run) <> []).
Proof.
  unfold create_directory.
  destruct (stat_is_dir env path) as [[|]|].
  - left. cbn. auto.
  - right. cbn. split; [reflexivity|discriminate].
  - destruct (mkdir_ok env path).
    + left. cbn. auto.
    + right. cbn. split; [reflexivity|discriminate].
Qed.

(** [main] on a command line of three words whose input is readable and
    whose output directory is in place. *)
Lemma main_extracts (env : Env) (order : ByteOrder)
    (prog input_file output_dir : string) :
  access_R_OK env input_file = true ->
  fst (create_directory env output_dir) = 0 ->
  let run := extract_cursor_frames env order input_file output_dir in
  main env order [prog; input_file; output_dir]
  = (fst run,
     snd (create_directory env output_dir) ++ snd run
     ++ (if fst run =? 0
         then [to_stdout ("Successfully extracted cursor frames to '"
                          ++ output_dir ++ "'" ++ newline)%string]
         else [])).
Proof.
  intros Hacc Hdir. unfold main.
  cbn [List.length Z.of_nat Pos.of_succ_nat Pos.succ Z.eqb Pos.eqb negb nth].
  rewrite Hacc. cbn [negb].
  unfold bind at 1. rewrite Hdir. cbn [Z.eqb negb fst snd].
  unfold bind. cbn [fst snd ret].
  destruct (fst (extract_cursor_frames env order input_file output_dir) =? 0);
    cbn; rewrite ?app_nil_r; reflexivity.
Qed.

(** A command line of another length only prints the usage. *)
Lemma main_usage (env : Env) (order : ByteOrder) (argv : list string) :
  List.length argv <> 3%nat ->
  main env order argv = (1, snd (print_usage (nth 0 argv ""%string))).
Proof.
  intros Hlen. unfold main.
  destruct (Z.eqb_spec (Z.of_nat (List.length argv)) 3) as [E|_]; [lia|].
  cbn [negb]. unfold bind at 1. cbn [fst snd ret].
  rewrite app_nil_r. reflexivity.
Qed.

(** ** Claims on the extraction *)

(** C7: when the call of [save_frame_as_png] for the frame of index [i]
    returns nonzero, all frames before it having been saved, the extraction
    returns 1 right after reporting the failure.  Its effects are the
    manifest, then those of the loop run to its end on the frames before
    [i], then those of the failed call and the error message, and nothing
    after: the frame files opened are those of the frames up to [i] and no
    later one, the images written in full are exactly those of the frames
    before [i], and the process exits with code 1. *)
Theorem C7_first_failed_frame_aborts (env : Env) (order : ByteOrder)
    (input_file output_dir : string) (comments : option XcursorComments)
    (pre : list XcursorImage) (image : XcursorImage)
    (post : list XcursorImage) :
  let i := Z.of_nat (List.length pre) in
  fopen_ok env input_file "rb" = true ->
  XcursorFileLoad env input_file = Some (comments, Some (pre ++ image :: post)) ->
  frames_saved env order output_dir 0 pre ->
  ~ frame_saved env order output_dir i image ->
  let run := extract_cursor_frames env order input_file output_dir in
  let failed :=
    save_frame_as_png env order image (output_path output_dir i) (i + 1) in
  fst run = 1 /\
  snd run
  = [fopen input_file "rb" true; fclose input_file;
     to_stdout ("Found " ++ fmt_d (nimage (pre ++ image :: post)%list)
                ++ " frame(s) in cursor file" ++ newline)%string]
    ++ snd (write_info_file env input_file output_dir comments
              (pre ++ image :: post))
    ++ snd (save_frames env order output_dir 0 pre)
    ++ snd failed
    ++ [to_stderr ("Error: Failed to save frame " ++ fmt_d (i + 1)
                   ++ newline)%string] /\
  opens "wb" (snd run) = frame_paths output_dir 0 (S (List.length pre)) /\
  images_written (snd run) = frame_files order output_dir 0 pre /\
  (forall prog,
     access_R_OK env input_file = true ->
     fst (create_directory env output_dir) = 0 ->
     fst (main env order [prog; input_file; output_dir]) = 1).
Proof.
  intros i Hopen Hload Hpre Hfail run failed.
  assert (Hne : pre ++ image :: post <> []) by (destruct pre; discriminate).
  pose proof (extract_cursor_frames_loaded env order input_file output_dir
                comments _ Hopen Hload Hne) as E.
  destruct (save_frames_saved_prefix env order output_dir pre (image :: post)
              0 Hpre) as (Eloop & Eo & Ew).
  cbv zeta in Eloop. rewrite Z.add_0_l in Eloop. fold i in Eloop.
  rewrite save_frames_step in Eloop. cbv zeta in Eloop. fold failed in Eloop.
  destruct (save_frame_as_png_cases env order image (output_path output_dir i)
              (i + 1)) as [[F0 _]|(F1 & Fw & Fo)]; [contradiction|].
  fold failed in F1, Fw, Fo.
  rewrite F1 in Eloop. cbn [Z.eqb fst snd] in Eloop.
  rewrite Eloop in E. cbn [fst snd] in E.
  destruct (write_info_file_quiet env input_file output_dir comments
              (pre ++ image :: post)) as (_ & Qo & Qw).
  assert (R : fst run = 1) by (unfold run; rewrite E; reflexivity).
  split; [exact R|]. split; [|split; [|split]].
  - unfold run. rewrite E. reflexivity.
  - unfold run. rewrite E. cbn [snd].
    rewrite !opens_app, Qo, Eo, Fo, frame_paths_snoc. reflexivity.
  - unfold run. rewrite E. cbn [snd].
    rewrite !images_written_app, Qw, Ew, Fw. cbn. apply app_nil_r.
  - intros prog Hacc Hdir.
    rewrite (main_extracts env order prog input_file output_dir Hacc Hdir).
    exact R.
Qed.

Lemma C7_witness :
  let run :=
    extract_cursor_frames env_second_frame_unwritable LITTLE_ENDIAN
      "left_ptr" "out" in
  fst run = 1 /\
  opens "wb" (snd run) = ["out/frame_001.png"; "out/frame_002.png"]%string /\
  images_written (snd run)
  = [("out/frame_001.png"%string, (1, 1, [[128; 64; 32; 128]]))].
Proof.
  assert (Hopen : fopen_ok env_second_frame_unwritable "left_ptr" "rb" = true)
    by reflexivity.
  assert (Hload : XcursorFileLoad env_second_frame_unwritable "left_ptr"
                  = Some (Some [{| comment_type := 1; comment := "sample" |}],
                          Some ([sample_image_1]
                                ++ sample_image_2 :: [sample_image_1])))
    by reflexivity.
  assert (Hpre : frames_saved env_second_frame_unwritable LITTLE_ENDIAN "out" 0
                   [sample_image_1])
    by (split; [reflexivity | exact I]).
  assert (Hfail : ~ frame_saved env_second_frame_unwritable LITTLE_ENDIAN "out"
                      (Z.of_nat (List.length [sample_image_1])) sample_image_2)
    by (vm_compute; discriminate).
  destruct (C7_first_failed_frame_aborts env_second_frame_unwritable
              LITTLE_ENDIAN "left_ptr" "out" _ [sample_image_1] sample_image_2
              [sample_image_1] Hopen Hload Hpre Hfail)
    as (R & _ & Ho & Hw & _).
  split; [exact R|]. split; [exact Ho | exact Hw].
Defined.

(** C10: when the loaded image list is null or holds no image,
    [extract_cursor_frames] returns 1 after reporting that no image was
    found; it opens no file for writing, neither a frame file nor the
    manifest, and the process exits with code 1. *)
Theorem C10_no_image_is_failure (env : Env) (order : ByteOrder)
    (input_file output_dir : string) (comments : option XcursorComments)
    (images : option XcursorImages) :
  fopen_ok env input_file "rb" = true ->
  XcursorFileLoad env input_file = Some (comments, images) ->
  images = None \/ (exists l, images = Some l /\ nimage l = 0) ->
  let run := extract_cursor_frames env order input_file output_dir in
  fst run = 1 /\
  snd run = [fopen input_file "rb" true; fclose input_file;
             to_stderr ("Error: No images found in cursor file"
                        ++ newline)%string] /\
  opens "w" (snd run) = [] /\ opens "wb" (snd run) = [] /\
  file_texts (snd run) = [] /\ images_written (snd run) = [] /\
  (forall prog,
     access_R_OK env input_file = true ->
     fst (create_directory env output_dir) = 0 ->
     fst (main env order [prog; input_file; output_dir]) = 1).
Proof.
  intros Hopen Hload Hno run.
  pose proof (extract_cursor_frames_no_image env order input_file output_dir
                comments images Hopen Hload Hno) as E.
  fold run in E.
  repeat split; try (rewrite E; reflexivity).
  intros prog Hacc Hdir.
  rewrite (main_extracts env order prog input_file output_dir Hacc Hdir).
  fold run. rewrite E. reflexivity.
Qed.

Lemma C10_witness :
  fst (extract_cursor_frames env_no_images LITTLE_ENDIAN "left_ptr" "out") = 1 /\
  fst (main env_no_images LITTLE_ENDIAN
         ["xcursor_extractor"; "left_ptr"; "out"]%string) = 1.
Proof.
  assert (Hopen : fopen_ok env_no_images "left_ptr" "rb" = true)
    by reflexivity.
  assert (Hload : XcursorFileLoad env_no_images "left_ptr"
                  = Some (Some [{| comment_type := 1; comment := "sample" |}],
                          Some []))
    by reflexivity.
  assert (Hno : Some (@nil XcursorImage) = None \/
                (exists l, Some (@nil XcursorImage) = Some l /\ nimage l = 0))
    by (right; exists []; split; reflexivity).
  destruct (C10_no_image_is_failure env_no_images LITTLE_ENDIAN "left_ptr"
              "out" _ _ Hopen Hload Hno) as (R & _ & _ & _ & _ & _ & M).
  split; [exact R|]. apply M; reflexivity.
Defined.

(** C8, as the spec states it, fails: with a manifest that cannot be
    created and frame files that can, the run writes nothing to [stderr]
    and the process exits with code 0. *)
Lemma C8_counterexample :
  let env := env_manifest_unwritable in
  let run :=
    main env LITTLE_ENDIAN ["xcursor_extractor"; "left_ptr"; "out"]%string in
  ~ (fopen_ok env (snprintf 1024 ("out" ++ "/cursor_info.txt")%string) "w" = false ->
     fst run <> 0 /\ stderr_of (snd run) <> []).
Proof.
  cbv zeta. intros H.
  destruct (H eq_refl) as [Hexit _]. apply Hexit. reflexivity.
Qed.

(** C8, amended: a failure to create the manifest is skipped without a
    report and has no part in the exit code, while every other failure the
    program tests for is reported and gives exit code 1.  The process exits
    with 0 or 1; it exits with 0 exactly when the command line has three
    words, the input is readable, the output directory is in place, the
    cursor file opens and loads with at least one image and every frame is
    saved, whatever happens to the manifest; an exit with 1 comes with a
    report on [stderr], or with the usage text when the command line is
    malformed; an exit with 0 comes with nothing on [stderr]; and a manifest
    that cannot be created leaves the failed [fopen] as its only trace. *)
Theorem C8_only_manifest_failure_is_silent (env : Env) (order : ByteOrder)
    (argv : list string) :
  let run := main env order argv in
  let all_well :=
    exists prog input_file output_dir comments images,
      argv = [prog; input_file; output_dir] /\
      access_R_OK env input_file = true /\
      fst (create_directory env output_dir) = 0 /\
      fopen_ok env input_file "rb" = true /\
      XcursorFileLoad env input_file = Some (comments, Some images) /\
      images <> [] /\
      frames_saved env order output_dir 0 images in
  (fst run = 0 \/ fst run = 1) /\
  (fst run = 0 <-> all_well) /\
  (fst run = 0 -> stderr_of (snd run) = []) /\
  (fst run = 1 ->
   stderr_of (snd run) <> [] \/
   (List.length argv <> 3%nat /\
    snd run = snd (print_usage (nth 0 argv ""%string)))) /\
  (forall input_file output_dir comments images,
     let info_file := snprintf 1024 (output_dir ++ "/cursor_info.txt")%string in
     fopen_ok env info_file "w" = false ->
     write_info_file env input_file output_dir comments images
     = (tt, [fopen info_file "w" false])).
Proof.
  cbv zeta.
  assert (Hinfo : forall input_file output_dir comments images,
             fopen_ok env (snprintf 1024 (output_dir ++ "/cursor_info.txt")%string)
               "w" = false ->
             write_info_file env input_file output_dir comments images
             = (tt, [fopen (snprintf 1024 (output_dir ++ "/cursor_info.txt")%string)
                       "w" false])).
  { intros input_file output_dir comments images H.
    unfold write_info_file. cbv zeta. rewrite H. reflexivity. }
  destruct (Nat.eq_dec (List.length argv) 3) as [Hlen|Hlen].
  2:{ rewrite (main_usage env order argv Hlen). cbn [fst snd].
      split; [right; reflexivity|]. split; [|split; [|split]].
      - split; [discriminate|].
        intros (prog & i & o & c & l & -> & _). contradiction Hlen. reflexivity.
      - discriminate.
      - intros _. right. split; [exact Hlen | reflexivity].
      - exact Hinfo. }
  destruct argv as [|prog [|input_file [|output_dir [|extra argv]]]];
    try discriminate Hlen.
  assert (Hargs : forall p i o : string,
             [prog; input_file; output_dir] = [p; i; o] ->
             i = input_file /\ o = output_dir)
    by (intros p i o H; injection H; auto).
  destruct (access_R_OK env input_file) eqn:Hacc.
  2:{ assert (E : main env order [prog; input_file; output_dir]
                  = (1, [to_stderr ("Error: Cannot read input file '"
                                    ++ input_file ++ "': "
                                    ++ strerror_errno env input_file
                                    ++ newline)%string])).
      { unfold main. cbn [List.length Z.of_nat Pos.of_succ_nat Pos.succ Z.eqb
                          Pos.eqb negb nth].
        rewrite Hacc. reflexivity. }
      rewrite E. cbn [fst snd].
      split; [right; reflexivity|]. split; [|split; [|split]].
      - split; [discriminate|].
        intros (p & i & o & c & l & Ha & Hr & _).
        destruct (Hargs p i o Ha) as [-> _]. congruence.
      - discriminate.
      - intros _. left. cbn. discriminate.
      - exact Hinfo. }
  destruct (create_directory_result env output_dir) as [[Hdir Hde]|[Hdir Hde]].
  2:{ assert (E : main env order [prog; input_file; output_dir]
                  = (1, snd (create_directory env output_dir)
                        ++ [to_stderr ("Error: Cannot create output directory '"
                                       ++ output_dir ++ "'" ++ newline)%string])).
      { unfold main. cbn [List.length Z.of_nat Pos.of_succ_nat Pos.succ Z.eqb
                          Pos.eqb negb nth].
        rewrite Hacc. cbn [negb]. unfold bind at 1. rewrite Hdir. reflexivity. }
      rewrite E. cbn [fst snd].
      split; [right; reflexivity|]. split; [|split; [|split]].
      - split; [discriminate|].
        intros (p & i & o & c & l & Ha & _ & Hd & _).
        destruct (Hargs p i o Ha) as [_ ->]. congruence.
      - discriminate.
      - intros _. left. rewrite stderr_of_app. intros H.
        apply app_eq_nil in H. destruct H as [H _]. exact (Hde H).
      - exact Hinfo. }
  rewrite (main_extracts env order prog input_file output_dir Hacc Hdir).
  cbn [fst snd].
  destruct (extract_cursor_frames_result env order input_file output_dir)
    as [(R & (c & l & W) & He)|(R & Hno & He)].
  - rewrite R. cbn [Z.eqb].
    split; [left; reflexivity|]. split; [|split; [|split]].
    + split; [|reflexivity]. intros _.
      exists prog, input_file, output_dir, c, l.
      split; [reflexivity|]. split; [exact Hacc|]. split; [exact Hdir|].
      exact W.
    + intros _. rewrite !stderr_of_app, Hde, He. reflexivity.
    + discriminate.
    + exact Hinfo.
  - rewrite R. cbn [Z.eqb].
    split; [right; reflexivity|]. split; [|split; [|split]].
    + split; [discriminate|].
      intros (p & i & o & c & l & Ha & _ & _ & W).
      destruct (Hargs p i o Ha) as [-> ->].
      exfalso. apply Hno. exists c, l. exact W.
    + discriminate.
    + intros _. left. rewrite !stderr_of_app, Hde, app_nil_r.
      cbn [app]. exact He.
    + exact Hinfo.
Qed.

(** C6, as the spec states it, fails: the two compiled variants differ on
    the 32-bit pixel [0x80402010]. *)
Lemma C6_counterexample :
  is_uint 0x80402010 /\
  separate_alpha_pixel LITTLE_ENDIAN 0x80402010 = 0x80804020 /\
  separate_alpha_pixel BIG_ENDIAN 0x80402010 = 0xFFFFFF10 /\
  separate_alpha_pixel LITTLE_ENDIAN 0x80402010
  <> separate_alpha_pixel BIG_ENDIAN 0x80402010.
Proof.
  split; [unfold is_uint, UINT_WIDTH; lia|].
  split; [reflexivity|]. split; [reflexivity|].
  vm_compute. discriminate.
Qed.

(** ** The two byte orders *)

Lemma channel_ranges (order : ByteOrder) (pixel : Z) :
  0 <= alpha_of order pixel <= 255 /\ 0 <= red_of order pixel <= 255 /\
  0 <= green_of order pixel <= 255 /\ 0 <= blue_of order pixel <= 255.
Proof. destruct order; repeat split; apply byte_range. Qed.

(** Byte reversal reads the channels in one layout and packs them in the
    other. *)
Lemma bswap32_pack (order : ByteOrder) (pixel : Z) :
  bswap32 pixel
  = pack (opposite order) (alpha_of order pixel) (red_of order pixel)
      (green_of order pixel) (blue_of order pixel).
Proof. destruct order; reflexivity. Qed.

Lemma pack_is_uint (order : ByteOrder) (a r g b : Z) :
  0 <= a <= 255 -> 0 <= r <= 255 -> 0 <= g <= 255 -> 0 <= b <= 255 ->
  is_uint (pack order a r g b).
Proof.
  intros Ha Hr Hg Hb. unfold is_uint, UINT_WIDTH, pack.
  destruct order; rewrite pack_sum by lia; lia.
Qed.

Lemma separate_alpha_pixel_is_uint (order : ByteOrder) (pixel : Z) :
  is_uint (separate_alpha_pixel order pixel).
Proof.
  destruct (Z.eq_dec (alpha_of order pixel) 0) as [E|N].
  - rewrite separate_alpha_pixel_zero by exact E.
    unfold is_uint, UINT_WIDTH. lia.
  - rewrite separate_alpha_pixel_nonzero by exact N.
    apply pack_is_uint; try apply clamp255_range.
    apply channel_ranges.
Qed.

(** One variant on the byte-reversed pixel is the byte reversal of the
    other variant on the pixel. *)
Lemma separate_alpha_pixel_bswap32 (order : ByteOrder) (pixel : Z) :
  separate_alpha_pixel (opposite order) (bswap32 pixel)
  = bswap32 (separate_alpha_pixel order pixel).
Proof.
  destruct (channel_ranges order pixel) as (Ra & Rr & Rg & Rb).
  destruct (channels_of_pack (opposite order) _ _ _ _ Ra Rr Rg Rb)
    as (Ea & Er & Eg & Eb).
  rewrite <- (bswap32_pack order pixel) in Ea, Er, Eg, Eb.
  destruct (Z.eq_dec (alpha_of order pixel) 0) as [E|N].
  - rewrite (separate_alpha_pixel_zero order pixel E).
    rewrite separate_alpha_pixel_zero by (rewrite Ea; exact E).
    reflexivity.
  - rewrite (separate_alpha_pixel_nonzero order pixel N).
    rewrite separate_alpha_pixel_nonzero by (rewrite Ea; exact N).
    rewrite Ea, Er, Eg, Eb.
    rewrite (bswap32_pack order (pack order _ _ _ _)).
    destruct (channels_of_pack order _ _ _ _ Ra
                (clamp255_range (unpremultiply_channel (red_of order pixel)
                                   (alpha_of order pixel)))
                (clamp255_range (unpremultiply_channel (green_of order pixel)
                                   (alpha_of order pixel)))
                (clamp255_range (unpremultiply_channel (blue_of order pixel)
                                   (alpha_of order pixel))))
      as (Fa & Fr & Fg & Fb).
    rewrite Fa, Fr, Fg, Fb. reflexivity.
Qed.

(** C6, amended: each compiled variant is a function of the 32-bit value
    of the pixel alone and yields a 32-bit value, but the two variants are
    not the same function: each is the other one between two byte
    reversals, so that the big-endian variant on the byte-reversed pixel
    gives the byte reversal of what the little-endian variant gives on the
    pixel, and the four bytes handed to the encoder are then the same. *)
Theorem C6_variants_agree_up_to_byte_reversal (pixel : Z) :
  separate_alpha_pixel BIG_ENDIAN (bswap32 pixel)
  = bswap32 (separate_alpha_pixel LITTLE_ENDIAN pixel) /\
  separate_alpha_pixel LITTLE_ENDIAN (bswap32 pixel)
  = bswap32 (separate_alpha_pixel BIG_ENDIAN pixel) /\
  is_uint (separate_alpha_pixel LITTLE_ENDIAN pixel) /\
  is_uint (separate_alpha_pixel BIG_ENDIAN pixel) /\
  rgba_bytes BIG_ENDIAN (separate_alpha_pixel BIG_ENDIAN (bswap32 pixel))
  = rgba_bytes LITTLE_ENDIAN (separate_alpha_pixel LITTLE_ENDIAN pixel).
Proof.
  pose proof (separate_alpha_pixel_bswap32 LITTLE_ENDIAN pixel) as Hle.
  pose proof (separate_alpha_pixel_bswap32 BIG_ENDIAN pixel) as Hbe.
  cbn [opposite] in Hle, Hbe.
  split; [exact Hle|]. split; [exact Hbe|].
  split; [apply separate_alpha_pixel_is_uint|].
  split; [apply separate_alpha_pixel_is_uint|].
  rewrite Hle.
  set (q := separate_alpha_pixel LITTLE_ENDIAN pixel).
  destruct (channel_ranges LITTLE_ENDIAN q) as (Ra & Rr & Rg & Rb).
  destruct (channels_of_pack (opposite LITTLE_ENDIAN) _ _ _ _ Ra Rr Rg Rb)
    as (Ea & Er & Eg & Eb).
  rewrite <- (bswap32_pack LITTLE_ENDIAN q) in Ea, Er, Eg, Eb.
  cbn [opposite] in Ea, Er, Eg, Eb.
  change (rgba_bytes BIG_ENDIAN (bswap32 q))
    with [red_of BIG_ENDIAN (bswap32 q); green_of BIG_ENDIAN (bswap32 q);
          blue_of BIG_ENDIAN (bswap32 q); alpha_of BIG_ENDIAN (bswap32 q)].
  rewrite Ea, Er, Eg, Eb. reflexivity.
Qed.

(** ** More on the pixel transform *)

(** The four channels of the result on a pixel of non-zero alpha. *)
Lemma separate_alpha_pixel_channels (order : ByteOrder) (pixel : Z) :
  alpha_of order pixel <> 0 ->
  let a := alpha_of order pixel in
  let out := separate_alpha_pixel order pixel in
  alpha_of order out = a /\
  red_of order out = clamp255 (unpremultiply_channel (red_of order pixel) a) /\
  green_of order out = clamp255 (unpremultiply_channel (green_of order pixel) a) /\
  blue_of order out = clamp255 (unpremultiply_channel (blue_of order pixel) a).
Proof.
  intros N a out. unfold out.
  rewrite separate_alpha_pixel_nonzero by exact N.
  apply channels_of_pack; try apply clamp255_range.
  apply channel_ranges.
Qed.

(** The channels of the all-zero pixel. *)
Lemma channels_of_zero (order : ByteOrder) :
  alpha_of order 0 = 0 /\ red_of order 0 = 0 /\
  green_of order 0 = 0 /\ blue_of order 0 = 0.
Proof. destruct order; repeat split. Qed.

(** The quotient of lines 268-270 is a nearest integer to [255 * c / a]. *)
Lemma unpremultiply_nearest (c a : Z) :
  1 <= a -> 2 * Z.abs (255 * c - unpremultiply_channel c a * a) <= a.
Proof.
  intros Ha. unfold unpremultiply_channel.
  pose proof (Z.div_mod (c * 255 + a / 2) a ltac:(lia)) as D.
  pose proof (Z.mod_pos_bound (c * 255 + a / 2) a ltac:(lia)) as M.
  pose proof (Z.div_mod a 2 ltac:(lia)) as D2.
  pose proof (Z.mod_pos_bound a 2 ltac:(lia)) as M2.
  lia.
Qed.

Lemma unpremultiply_monotone (c c' a : Z) :
  1 <= a -> c <= c' ->
  clamp255 (unpremultiply_channel c a) <= clamp255 (unpremultiply_channel c' a).
Proof.
  intros Ha Hc. unfold clamp255, unpremultiply_channel.
  assert ((c * 255 + a / 2) / a <= (c' * 255 + a / 2) / a)
    by (apply Z.div_le_mono; lia).
  lia.
Qed.

(** X1: on premultiplied input (alpha [a <> 0], every colour channel at
    most [a]) each colour channel [q] of the result is a nearest integer to
    [255 * c / a] for the channel [c] it comes from: [q * a] is within
    [a / 2] of [255 * c]. *)
Theorem X1_result_is_nearest_quotient (order : ByteOrder) (pixel : Z) :
  let a := alpha_of order pixel in
  let out := separate_alpha_pixel order pixel in
  a <> 0 ->
  red_of order pixel <= a -> green_of order pixel <= a ->
  blue_of order pixel <= a ->
  2 * Z.abs (255 * red_of order pixel - red_of order out * a) <= a /\
  2 * Z.abs (255 * green_of order pixel - green_of order out * a) <= a /\
  2 * Z.abs (255 * blue_of order pixel - blue_of order out * a) <= a.
Proof.
  intros a out Ha Hr Hg Hb.
  destruct (channel_ranges order pixel) as (Ra & Rr & Rg & Rb).
  destruct (separate_alpha_pixel_channels order pixel Ha) as (_ & Er & Eg & Eb).
  fold a out in Er, Eg, Eb. fold a in Ra.
  pose proof (unpremultiply_bounded _ a (conj (proj1 Rr) Hr) ltac:(lia)) as Br.
  pose proof (unpremultiply_bounded _ a (conj (proj1 Rg) Hg) ltac:(lia)) as Bg.
  pose proof (unpremultiply_bounded _ a (conj (proj1 Rb) Hb) ltac:(lia)) as Bb.
  rewrite Er, Eg, Eb. unfold clamp255.
  rewrite !Z.min_r, !Z.max_r by lia.
  repeat split; apply unpremultiply_nearest; lia.
Qed.

Lemma X1_witness :
  2 * Z.abs (255 * red_of LITTLE_ENDIAN 0x80402010
             - red_of LITTLE_ENDIAN
                 (separate_alpha_pixel LITTLE_ENDIAN 0x80402010)
               * alpha_of LITTLE_ENDIAN 0x80402010)
  <= alpha_of LITTLE_ENDIAN 0x80402010.
Proof.
  assert (Ha : alpha_of LITTLE_ENDIAN 0x80402010 <> 0)
    by (vm_compute; discriminate).
  assert (Hr : red_of LITTLE_ENDIAN 0x80402010 <= alpha_of LITTLE_ENDIAN 0x80402010)
    by (vm_compute; discriminate).
  assert (Hg : green_of LITTLE_ENDIAN 0x80402010 <= alpha_of LITTLE_ENDIAN 0x80402010)
    by (vm_compute; discriminate).
  assert (Hb : blue_of LITTLE_ENDIAN 0x80402010 <= alpha_of LITTLE_ENDIAN 0x80402010)
    by (vm_compute; discriminate).
  exact (proj1 (X1_result_is_nearest_quotient LITTLE_ENDIAN 0x80402010
                  Ha Hr Hg Hb)).
Defined.

(** X2: between two pixels of the same alpha the transform keeps the order
    of each colour channel: a channel that is not larger in the input is
    not larger in the result. *)
Theorem X2_channels_monotone (order : ByteOrder) (p q : Z) :
  alpha_of order p = alpha_of order q ->
  let p' := separate_alpha_pixel order p in
  let q' := separate_alpha_pixel order q in
  (red_of order p <= red_of order q -> red_of order p' <= red_of order q') /\
  (green_of order p <= green_of order q ->
   green_of order p' <= green_of order q') /\
  (blue_of order p <= blue_of order q -> blue_of order p' <= blue_of order q').
Proof.
  intros Ha p' q'.
  destruct (Z.eq_dec (alpha_of order p) 0) as [E|N].
  - unfold p', q'.
    rewrite (separate_alpha_pixel_zero order p E).
    rewrite (separate_alpha_pixel_zero order q) by congruence.
    repeat split; intros _; lia.
  - destruct (separate_alpha_pixel_channels order p N) as (_ & Pr & Pg & Pb).
    destruct (separate_alpha_pixel_channels order q) as (_ & Qr & Qg & Qb);
      [congruence|].
    fold p' in Pr, Pg, Pb. fold q' in Qr, Qg, Qb.
    rewrite Pr, Pg, Pb, Qr, Qg, Qb, <- Ha.
    destruct (channel_ranges order p) as (Ra & _).
    repeat split; intros H; apply unpremultiply_monotone; lia.
Qed.

Lemma X2_witness :
  alpha_of LITTLE_ENDIAN 0x80102030 = alpha_of LITTLE_ENDIAN 0x80402010 /\
  red_of LITTLE_ENDIAN (separate_alpha_pixel LITTLE_ENDIAN 0x80102030)
  <= red_of LITTLE_ENDIAN (separate_alpha_pixel LITTLE_ENDIAN 0x80402010).
Proof.
  assert (Ha : alpha_of LITTLE_ENDIAN 0x80102030
               = alpha_of LITTLE_ENDIAN 0x80402010) by reflexivity.
  assert (Hr : red_of LITTLE_ENDIAN 0x80102030 <= red_of LITTLE_ENDIAN 0x80402010)
    by (vm_compute; discriminate).
  split; [exact Ha|].
  exact (proj1 (X2_channels_monotone LITTLE_ENDIAN 0x80102030 0x80402010 Ha) Hr).
Defined.

(** X3: whatever the pixel, the result fits 32 bits and each of its four
    channels is a byte; on a pixel of non-zero alpha a colour channel that
    is 0 stays 0 and one that is at least alpha becomes 255. *)
Theorem X3_result_in_range (order : ByteOrder) (pixel : Z) :
  let a := alpha_of order pixel in
  let out := separate_alpha_pixel order pixel in
  is_uint out /\
  (a <> 0 ->
   (red_of order pixel = 0 -> red_of order out = 0) /\
   (green_of order pixel = 0 -> green_of order out = 0) /\
   (blue_of order pixel = 0 -> blue_of order out = 0) /\
   (a <= red_of order pixel -> red_of order out = 255) /\
   (a <= green_of order pixel -> green_of order out = 255) /\
   (a <= blue_of order pixel -> blue_of order out = 255)).
Proof.
  intros a out. split; [apply separate_alpha_pixel_is_uint|].
  intros Ha.
  destruct (separate_alpha_pixel_channels order pixel Ha) as (_ & Er & Eg & Eb).
  fold a out in Er, Eg, Eb.
  destruct (channel_ranges order pixel) as (Ra & Rr & Rg & Rb). fold a in Ra.
  assert (Z0 : clamp255 (unpremultiply_channel 0 a) = 0).
  { unfold clamp255, unpremultiply_channel. cbn [Z.mul Z.add].
    rewrite Z.div_small; [reflexivity|].
    split; [apply Z.div_pos; lia | apply Z.div_lt_upper_bound; lia]. }
  assert (Z1 : forall c, a <= c -> clamp255 (unpremultiply_channel c a) = 255).
  { intros c Hc. unfold clamp255, unpremultiply_channel.
    assert (255 <= (c * 255 + a / 2) / a).
    { apply Z.div_le_lower_bound; [lia|].
      assert (0 <= a / 2) by (apply Z.div_pos; lia). nia. }
    lia. }
  rewrite Er, Eg, Eb.
  repeat split; intros H; try (rewrite H; exact Z0); apply Z1; exact H.
Qed.

(** ** The rows handed to libpng *)

Lemma rgba_bytes_channels (order : ByteOrder) (pixel : Z) :
  rgba_bytes order pixel
  = [red_of order pixel; green_of order pixel; blue_of order pixel;
     alpha_of order pixel].
Proof. destruct order; reflexivity. Qed.

Lemma flat_map_length_const {A B : Type} (f : A -> list B) (n : nat)
    (l : list A) :
  (forall x, List.length (f x) = n) ->
  List.length (flat_map f l) = (n * List.length l)%nat.
Proof.
  intros Hf. induction l as [|x l IH]; cbn [flat_map List.length]; [lia|].
  rewrite length_app, Hf, IH. lia.
Qed.

(** The chunk of index [k] of a [flat_map] whose chunks all have length
    [n]. *)
Lemma flat_map_chunk {A B : Type} (f : A -> list B) (n : nat) (l : list A)
    (d : A) :
  (forall x, List.length (f x) = n) ->
  forall k : nat,
    (k < List.length l)%nat ->
    firstn n (skipn (n * k) (flat_map f l)) = f (nth k l d).
Proof.
  intros Hf. induction l as [|x l IH]; intros k Hk; [cbn in Hk; lia|].
  cbn [flat_map]. destruct k as [|k].
  - rewrite Nat.mul_0_r. cbn [skipn nth].
    rewrite <- (Hf x) at 1. rewrite firstn_app, Nat.sub_diag, firstn_all.
    cbn [firstn]. apply app_nil_r.
  - cbn [nth List.length] in *.
    rewrite skipn_app, (Hf x).
    rewrite skipn_all2 by (rewrite Hf; nia).
    replace (n * S k - n)%nat with (n * k)%nat by nia.
    cbn [app]. apply IH. lia.
Qed.

(** X4: the conversion loops of [save_frame_as_png] fill a buffer of
    [height] rows of [4 * width] bytes each, and every entry is a byte. *)
Theorem X4_rows_shape (order : ByteOrder) (image : XcursorImage) :
  let rows := convert_rows order image in
  List.length rows = Z.to_nat (height image) /\
  Forall (fun row =>
            List.length row = (4 * Z.to_nat (width image))%nat /\
            Forall (fun byte => 0 <= byte <= 255) row) rows.
Proof.
  cbv zeta. unfold convert_rows. split.
  - rewrite length_map, length_seq. reflexivity.
  - apply Forall_forall. intros row Hrow.
    apply in_map_iff in Hrow. destruct Hrow as (y & <- & _).
    unfold convert_row. split.
    + rewrite (flat_map_length_const _ 4), length_seq; [reflexivity|].
      intros x. cbv zeta. rewrite rgba_bytes_channels. reflexivity.
    + apply Forall_forall. intros byte Hbyte.
      apply in_flat_map in Hbyte. destruct Hbyte as (x & _ & Hin).
      cbv zeta in Hin.
      destruct order; cbn [rgba_bytes In] in Hin;
        repeat (destruct Hin as [<-|Hin]; [apply byte_range|]);
        contradiction.
Qed.

(** X5: in a well-formed image, the four bytes of row [y] that start at
    offset [4 * x] are the red, green and blue channels of the transformed
    pixel of column [x] and row [y], and the alpha channel of that pixel as
    it was in the cursor. *)
Theorem X5_pixel_bytes_in_row (order : ByteOrder) (image : XcursorImage)
    (x y : nat) :
  well_formed_image image ->
  Z.of_nat x < width image -> Z.of_nat y < height image ->
  let pixel :=
    nth (y * Z.to_nat (width image) + x) (pixels image) 0 in
  let out := separate_alpha_pixel order pixel in
  (y * Z.to_nat (width image) + x < List.length (pixels image))%nat /\
  firstn 4 (skipn (4 * x) (nth y (convert_rows order image) []))
  = [red_of order out; green_of order out; blue_of order out;
     alpha_of order pixel].
Proof.
  intros (Hw & Hh & Hfit & Hlen) Hx Hy pixel out.
  assert (Hidx : Z.of_nat (y * Z.to_nat (width image) + x)
                 = Z.of_nat y * width image + Z.of_nat x)
    by (rewrite Nat2Z.inj_add, Nat2Z.inj_mul, Z2Nat.id by lia; reflexivity).
  assert (Hin : Z.of_nat y * width image + Z.of_nat x
                < width image * height image) by nia.
  split; [lia|].
  unfold convert_rows.
  rewrite (nth_indep _ [] (convert_row order image 0))
    by (rewrite length_map, length_seq; lia).
  rewrite (map_nth (convert_row order image)), seq_nth by lia.
  cbn [Nat.add]. unfold convert_row.
  rewrite (flat_map_chunk _ 4 _ 0%nat) by
    (try (intros; cbv zeta; rewrite rgba_bytes_channels; reflexivity);
     rewrite length_seq; lia).
  rewrite seq_nth by lia. cbn [Nat.add]. cbv zeta.
  rewrite uint_small by (change (2 ^ 32) with 4294967296 in *; nia).
  rewrite <- Hidx, Nat2Z.id. fold pixel. fold out.
  rewrite rgba_bytes_channels. f_equal. f_equal. f_equal. f_equal.
  unfold out.
  destruct (Z.eq_dec (alpha_of order pixel) 0) as [E|N].
  - rewrite separate_alpha_pixel_zero by exact E.
    rewrite E. apply channels_of_zero.
  - apply (separate_alpha_pixel_channels order pixel N).
Qed.

Lemma X5_witness :
  firstn 4 (skipn (4 * 1) (nth 0 (convert_rows LITTLE_ENDIAN sample_image_2) []))
  = [0; 0; 0; 0].
Proof.
  assert (W : well_formed_image sample_image_2)
    by (unfold well_formed_image; cbn; lia).
  assert (Hx : Z.of_nat 1 < width sample_image_2) by (cbn; lia).
  assert (Hy : Z.of_nat 0 < height sample_image_2) by (cbn; lia).
  exact (proj2 (X5_pixel_bytes_in_row LITTLE_ENDIAN sample_image_2 1 0 W Hx Hy)).
Defined.

(** ** The discipline of streams *)

Lemma stream_discipline_app (t u : list Event) :
  forall cur : option string,
    stream_discipline cur (t ++ u)
    = match stream_discipline cur t with
      | Some cur' => stream_discipline cur' u
      | None => None
      end.
Proof.
  induction t as [|e t IH]; intros cur; [reflexivity|].
  cbn [app stream_discipline].
  destruct e as [s|s|p|p m [|]|p s|p|p w h rows|p]; try apply IH;
    destruct cur as [c|]; try reflexivity; try apply IH;
    destruct (c =? p)%string; try reflexivity; apply IH.
Qed.

(** A computation that leaves the open stream as it found it. *)
Lemma stream_discipline_bind {A B : Type} (m : IO A) (k : A -> IO B)
    (cur mid : option string) :
  stream_discipline cur (snd m) = Some mid ->
  stream_discipline cur (snd (bind m k))
  = stream_discipline mid (snd (k (fst m))).
Proof.
  intros Hm. unfold bind. cbn [snd].
  rewrite stream_discipline_app, Hm. reflexivity.
Qed.

Lemma write_frame_details_streams (info_file : string)
    (images : list XcursorImage) :
  forall i : Z,
    stream_discipline (Some info_file)
      (snd (write_frame_details info_file i images))
    = Some (Some info_file).
Proof.
  induction images as [|img rest IH]; intros i; [reflexivity|].
  cbn [write_frame_details]. unfold bind, emit. cbn [snd fst app].
  cbn [stream_discipline]. rewrite String.eqb_refl. apply IH.
Qed.

Lemma write_comments_streams (info_file : string)
    (comments : list XcursorComment) :
  stream_discipline (Some info_file) (snd (write_comments info_file comments))
  = Some (Some info_file).
Proof.
  induction comments as [|c rest IH]; [reflexivity|].
  cbn [write_comments]. unfold bind, emit. cbn [snd fst app].
  cbn [stream_discipline]. rewrite String.eqb_refl. apply IH.
Qed.

Lemma write_info_file_streams (env : Env) (input_file output_dir : string)
    (comments : option XcursorComments) (images : XcursorImages) :
  stream_discipline None
    (snd (write_info_file env input_file output_dir comments images))
  = Some None.
Proof.
  unfold write_info_file. cbv zeta.
  set (info_file := snprintf 1024 (output_dir ++ "/cursor_info.txt")%string).
  destruct (fopen_ok env info_file "w"); [|reflexivity].
  rewrite (stream_discipline_bind _ _ None (Some info_file)) by reflexivity.
  do 5 (rewrite (stream_discipline_bind _ _ (Some info_file) (Some info_file))
          by (cbn; rewrite String.eqb_refl; reflexivity)).
  rewrite (stream_discipline_bind _ _ (Some info_file) (Some info_file))
    by apply write_frame_details_streams.
  rewrite (stream_discipline_bind _ _ (Some info_file) (Some info_file)).
  - cbn. rewrite String.eqb_refl. reflexivity.
  - destruct comments as [cs|]; [|reflexivity].
    destruct (0 <? ncomment cs); [|reflexivity].
    rewrite (stream_discipline_bind _ _ (Some info_file) (Some info_file))
      by (cbn; rewrite String.eqb_refl; reflexivity).
    apply write_comments_streams.
Qed.

Lemma save_frame_as_png_streams (env : Env) (order : ByteOrder)
    (image : XcursorImage) (filename : string) (frame_num : Z) :
  stream_discipline None
    (snd (save_frame_as_png env order image filename frame_num))
  = Some None.
Proof.
  unfold save_frame_as_png.
  destruct (fopen_ok env filename "wb"); cbn; [|reflexivity].
  destruct (png_create_write_struct_ok env filename); cbn;
    [|rewrite String.eqb_refl; reflexivity].
  destruct (png_create_info_struct_ok env filename); cbn;
    [|rewrite String.eqb_refl; reflexivity].
  destruct (png_longjmp env filename); cbn;
    rewrite !String.eqb_refl; reflexivity.
Qed.

Lemma save_frames_streams (env : Env) (order : ByteOrder)
    (output_dir : string) (images : list XcursorImage) :
  forall i : Z,
    stream_discipline None (snd (save_frames env order output_dir i images))
    = Some None.
Proof.
  induction images as [|img rest IH]; intros i; [reflexivity|].
  rewrite save_frames_step. cbv zeta.
  destruct (fst (save_frame_as_png env order img (output_path output_dir i)
                   (i + 1)) =? 0); cbn [snd];
    rewrite stream_discipline_app, save_frame_as_png_streams.
  - cbn [stream_discipline]. apply IH.
  - reflexivity.
Qed.

Lemma extract_cursor_frames_streams (env : Env) (order : ByteOrder)
    (input_file output_dir : string) :
  stream_discipline None
    (snd (extract_cursor_frames env order input_file output_dir))
  = Some None.
Proof.
  unfold extract_cursor_frames.
  destruct (fopen_ok env input_file "rb"); cbn [negb]; [|reflexivity].
  rewrite (stream_discipline_bind _ _ None (Some input_file)) by reflexivity.
  destruct (XcursorFileLoad env input_file) as [[comments images]|].
  2:{ cbn. rewrite String.eqb_refl. reflexivity. }
  rewrite (stream_discipline_bind _ _ (Some input_file) None)
    by (cbn; rewrite String.eqb_refl; reflexivity).
  destruct images as [images|]; [|reflexivity].
  destruct (nimage images =? 0); [reflexivity|].
  rewrite (stream_discipline_bind _ _ None None) by reflexivity.
  rewrite (stream_discipline_bind _ _ None None)
    by apply write_info_file_streams.
  apply save_frames_streams.
Qed.

Lemma create_directory_streams (env : Env) (path : string)
    (cur : option string) :
  stream_discipline cur (snd (create_directory env path)) = Some cur.
Proof.
  unfold create_directory.
  destruct (stat_is_dir env path) as [[|]|]; try reflexivity.
  destruct (mkdir_ok env path); reflexivity.
Qed.

(** X6: along every run of the program, whatever the environment answers
    and whatever the command line, at most one [FILE] stream is open at a
    time, nothing is written to a stream that is not open, every stream
    that was opened is closed exactly once, and none is open when [main]
    returns. *)
Theorem X6_streams_opened_are_closed (env : Env) (order : ByteOrder)
    (argv : list string) :
  stream_discipline None (snd (main env order argv)) = Some None.
Proof.
  destruct (Nat.eq_dec (List.length argv) 3) as [Hlen|Hlen].
  2:{ rewrite (main_usage env order argv Hlen). reflexivity. }
  destruct argv as [|prog [|input_file [|output_dir [|extra argv]]]];
    try discriminate Hlen.
  unfold main.
  cbn [List.length Z.of_nat Pos.of_succ_nat Pos.succ Z.eqb Pos.eqb negb nth].
  destruct (access_R_OK env input_file); cbn [negb]; [|reflexivity].
  rewrite (stream_discipline_bind _ _ None None)
    by apply create_directory_streams.
  destruct (fst (create_directory env output_dir) =? 0); cbn [negb];
    [|reflexivity].
  rewrite (stream_discipline_bind _ _ None None)
    by apply extract_cursor_frames_streams.
  destruct (fst (extract_cursor_frames env order input_file output_dir) =? 0);
    reflexivity.
Qed.

(** ** Strings and file names *)

Lemma string_length_app (s t : string) :
  String.length (s ++ t)%string = (String.length s + String.length t)%nat.
Proof. induction s as [|c s IH]; cbn; [reflexivity | now rewrite IH]. Qed.

Lemma string_app_assoc (s t u : string) :
  ((s ++ t) ++ u = s ++ (t ++ u))%string.
Proof. induction s as [|c s IH]; cbn; [reflexivity | now rewrite IH]. Qed.

Lemma string_app_inj_l (s t u : string) :
  (s ++ t = s ++ u)%string -> t = u.
Proof.
  induction s as [|c s IH]; cbn; intros H; [exact H|].
  injection H as H. exact (IH H).
Qed.

Lemma string_app_inj_r (s : string) :
  forall t u : string, (t ++ s = u ++ s)%string -> t = u.
Proof.
  induction t as [|c t IH]; intros [|d u] H; cbn in H.
  - reflexivity.
  - apply (f_equal String.length) in H. cbn in H.
    rewrite string_length_app in H. lia.
  - apply (f_equal String.length) in H. cbn in H.
    rewrite string_length_app in H. lia.
  - injection H as -> H. f_equal. exact (IH u H).
Qed.

Lemma substring_0_short (s : string) :
  forall n : nat, (String.length s <= n)%nat -> substring 0 n s = s.
Proof.
  induction s as [|c s IH]; intros [|n] H; cbn in *; try reflexivity; try lia.
  f_equal. apply IH. lia.
Qed.

Lemma substring_0_length (s : string) :
  forall n : nat, (String.length (substring 0 n s) <= n)%nat.
Proof.
  induction s as [|c s IH]; intros [|n]; cbn; try lia.
  specialize (IH n). lia.
Qed.

Lemma substring_0_app_long (s t : string) :
  forall n : nat,
    (n <= String.length s)%nat ->
    substring 0 n (s ++ t) = substring 0 n s.
Proof.
  induction s as [|c s IH]; intros [|n] H; cbn in *; try reflexivity; try lia.
  - destruct t; reflexivity.
  - f_equal. apply IH. lia.
Qed.

Lemma zeros_length (n : nat) : String.length (zeros n) = n.
Proof. induction n as [|n IH]; cbn; [reflexivity | now rewrite IH]. Qed.

(** The decimal digits [%d] prints for a number that is not negative. *)
Lemma fmt_d_digits (n : Z) :
  0 <= n ->
  exists d : Decimal.uint,
    fmt_d n = NilEmpty.string_of_uint d /\ Z.of_uint d = n.
Proof.
  intros Hn. unfold fmt_d. destruct n as [|p|p]; [| |lia].
  - exists (Decimal.D0 Decimal.Nil). split; reflexivity.
  - exists (Pos.to_uint p). cbn [Z.to_int NilZero.string_of_int]. split.
    + unfold NilZero.string_of_uint.
      destruct (Pos.to_uint p) eqn:E; try reflexivity.
      exfalso. exact (DecimalPos.Unsigned.to_uint_nonnil p E).
    + unfold Z.of_uint. rewrite DecimalPos.Unsigned.of_to. reflexivity.
Qed.

Lemma number_of_zeros_digits (k : nat) (d : Decimal.uint) :
  number_of_digits (zeros k ++ NilEmpty.string_of_uint d) = Some (Z.of_uint d).
Proof.
  unfold number_of_digits.
  induction k as [|k IH]; cbn [zeros String.append].
  - rewrite NilEmpty.usu. reflexivity.
  - cbn [NilEmpty.uint_of_string].
    destruct (NilEmpty.uint_of_string (zeros k ++ NilEmpty.string_of_uint d))
      as [u|]; [|discriminate IH].
    cbn in IH |- *. exact IH.
Qed.

(** The number can be read back from what [%03d] prints. *)
Lemma number_of_fmt_03d (n : Z) :
  0 <= n -> number_of_digits (fmt_03d n) = Some n.
Proof.
  intros Hn. unfold fmt_03d.
  destruct (Z.ltb_spec n 0) as [|_]; [lia|]. cbv zeta.
  destruct (fmt_d_digits n Hn) as (d & -> & <-).
  apply number_of_zeros_digits.
Qed.

Lemma fmt_03d_length (n : Z) :
  0 <= n -> (3 <= String.length (fmt_03d n))%nat.
Proof.
  intros Hn. unfold fmt_03d.
  destruct (Z.ltb_spec n 0) as [|_]; [lia|]. cbv zeta.
  rewrite string_length_app, zeros_length. lia.
Qed.

Lemma fmt_03d_length_small (n : Z) :
  0 <= n <= 999 -> String.length (fmt_03d n) = 3%nat.
Proof.
  intros Hn.
  assert (H : forallb (fun k => String.length (fmt_03d (Z.of_nat k)) =? 3)%nat
                (seq 0 1000) = true) by (vm_compute; reflexivity).
  rewrite forallb_forall in H.
  specialize (H (Z.to_nat n)).
  rewrite Z2Nat.id in H by lia.
  apply Nat.eqb_eq, H, in_seq. lia.
Qed.

(** X7: the name of a frame file never exceeds the 1023 characters the
    buffer of line 69 holds; when the full name fits, it is the output
    directory, [/frame_], the frame number in decimal with at least three
    digits (exactly three up to frame 999) and [.png]. *)
Theorem X7_output_path_format (output_dir : string) (i : Z) :
  let full := (output_dir ++ "/frame_" ++ fmt_03d (i + 1) ++ ".png")%string in
  (String.length (output_path output_dir i) <= 1023)%nat /\
  ((String.length full <= 1023)%nat -> output_path output_dir i = full) /\
  (0 <= i -> (3 <= String.length (fmt_03d (i + 1)))%nat) /\
  (0 <= i < 999 -> String.length (fmt_03d (i + 1)) = 3%nat).
Proof.
  cbv zeta. unfold output_path, snprintf.
  change (1024 - 1)%nat with 1023%nat.
  split; [apply substring_0_length|].
  split; [apply substring_0_short|].
  split; intros Hi; [apply fmt_03d_length | apply fmt_03d_length_small]; lia.
Qed.

(** X8: frames of different indices get different file names, as long as
    both names fit the buffer. *)
Theorem X8_output_path_injective (output_dir : string) (i j : Z) :
  0 <= i -> 0 <= j -> i <> j ->
  (String.length (output_dir ++ "/frame_" ++ fmt_03d (i + 1) ++ ".png")
   <= 1023)%nat ->
  (String.length (output_dir ++ "/frame_" ++ fmt_03d (j + 1) ++ ".png")
   <= 1023)%nat ->
  output_path output_dir i <> output_path output_dir j.
Proof.
  intros Hi Hj Hij Li Lj H. apply Hij.
  unfold output_path, snprintf in H. change (1024 - 1)%nat with 1023%nat in H.
  rewrite !substring_0_short in H by assumption.
  apply string_app_inj_l, string_app_inj_l, string_app_inj_r in H.
  apply (f_equal number_of_digits) in H.
  rewrite !number_of_fmt_03d in H by lia.
  injection H. lia.
Qed.

Lemma X8_witness : output_path "out" 9 <> output_path "out" 99.
Proof.
  apply (X8_output_path_injective "out" 9 99); try lia; vm_compute; lia.
Defined.

(** X9: when the name of the output directory has 1023 characters or more,
    the names of all frame files and of the manifest are cut down to the
    same string, the first 1023 characters of the directory name. *)
Theorem X9_long_directory_names_collide (output_dir : string) (i : Z) :
  (1023 <= String.length output_dir)%nat ->
  output_path output_dir i = substring 0 1023 output_dir /\
  snprintf 1024 (output_dir ++ "/cursor_info.txt") = substring 0 1023 output_dir.
Proof.
  intros H. unfold output_path, snprintf.
  change (1024 - 1)%nat with 1023%nat.
  split; apply substring_0_app_long; exact H.
Qed.

Lemma X9_witness :
  output_path (zeros 1023) 0 = output_path (zeros 1023) 1 /\
  output_path (zeros 1023) 0
  = snprintf 1024 (zeros 1023 ++ "/cursor_info.txt")%string.
Proof.
  assert (H : (1023 <= String.length (zeros 1023))%nat)
    by (rewrite zeros_length; apply Nat.le_refl).
  destruct (X9_long_directory_names_collide (zeros 1023) 0 H) as (E0 & Ei).
  destruct (X9_long_directory_names_collide (zeros 1023) 1 H) as (E1 & _).
  split; congruence.
Defined.

(** ** More on the extraction and the process *)

Lemma stdout_of_app (t u : list Event) :
  stdout_of (t ++ u) = stdout_of t ++ stdout_of u.
Proof. apply flat_map_app. Qed.

Lemma file_texts_app (t u : list Event) :
  file_texts (t ++ u) = file_texts t ++ file_texts u.
Proof. apply flat_map_app. Qed.

Lemma mkdirs_app (t u : list Event) : mkdirs (t ++ u) = mkdirs t ++ mkdirs u.
Proof. apply flat_map_app. Qed.

(** What [create_directory] does to the file system. *)
Lemma create_directory_effects (env : Env) (path : string) :
  let run := create_directory env path in
  streams_opened (snd run) = [] /\
  (forall mode, opens mode (snd run) = []) /\
  file_texts (snd run) = [] /\ images_written (snd run) = [] /\
  stdout_of (snd run) = [] /\
  mkdirs (snd run)
  = match stat_is_dir env path with
    | None => if mkdir_ok env path then [path] else []
    | Some _ => []
    end.
Proof.
  unfold create_directory.
  destruct (stat_is_dir env path) as [[|]|]; [cbn; auto 7 ..|].
  destruct (mkdir_ok env path); cbn; auto 7.
Qed.

(** X10: [main] touches the file system only after its checks: with a
    command line that does not have three words, or an input file that is
    not readable, it returns 1 without creating a directory, opening a file
    or writing to one. *)
Theorem X10_no_effect_before_checks (env : Env) (order : ByteOrder)
    (argv : list string) :
  List.length argv <> 3%nat \/ access_R_OK env (nth 1 argv ""%string) = false ->
  let run := main env order argv in
  fst run = 1 /\ mkdirs (snd run) = [] /\
  (forall mode, opens mode (snd run) = []) /\
  file_texts (snd run) = [] /\ images_written (snd run) = [].
Proof.
  intros H.
  destruct (Nat.eq_dec (List.length argv) 3) as [Hlen|Hlen].
  2:{ cbv zeta. rewrite (main_usage env order argv Hlen).
      repeat split. }
  destruct H as [H|H]; [contradiction|].
  destruct argv as [|prog [|input_file [|output_dir [|extra argv]]]];
    try discriminate Hlen.
  cbn [nth] in H. cbv zeta. unfold main.
  cbn [List.length Z.of_nat Pos.of_succ_nat Pos.succ Z.eqb Pos.eqb negb nth].
  rewrite H. repeat split.
Qed.

Lemma X10_witness :
  fst (main env_no_images LITTLE_ENDIAN ["xcursor_extractor"; "left_ptr"]%string)
  = 1.
Proof.
  assert (H : List.length ["xcursor_extractor"; "left_ptr"]%string <> 3%nat \/
              access_R_OK env_no_images
                (nth 1 ["xcursor_extractor"; "left_ptr"]%string ""%string)
              = false)
    by (left; discriminate).
  exact (proj1 (X10_no_effect_before_checks env_no_images LITTLE_ENDIAN _ H)).
Defined.

(** X11: when the output path exists and is not a directory, or does not
    exist and cannot be created, [main] returns 1 after two lines on
    [stderr], one of [create_directory] and one of its own; it creates
    nothing and never opens the input file. *)
Theorem X11_output_directory_failure (env : Env) (order : ByteOrder)
    (prog input_file output_dir : string) :
  access_R_OK env input_file = true ->
  stat_is_dir env output_dir = Some false \/
  (stat_is_dir env output_dir = None /\ mkdir_ok env output_dir = false) ->
  let run := main env order [prog; input_file; output_dir] in
  fst run = 1 /\ List.length (stderr_of (snd run)) = 2%nat /\
  mkdirs (snd run) = [] /\ (forall mode, opens mode (snd run) = []).
Proof.
  intros Hacc Hdir. cbv zeta. unfold main.
  cbn [List.length Z.of_nat Pos.of_succ_nat Pos.succ Z.eqb Pos.eqb negb nth].
  rewrite Hacc. cbn [negb]. unfold create_directory.
  destruct Hdir as [->|[-> ->]]; repeat split.
Qed.

Lemma X11_witness :
  let env :=
    {| access_R_OK := fun _ => true;
       stat_is_dir := fun _ => Some false;
       mkdir_ok := fun _ => true;
       fopen_ok := fun _ _ => true;
       strerror_errno := fun _ => "Not a directory"%string;
       XcursorFileLoad := fun _ => None;
       png_create_write_struct_ok := fun _ => true;
       png_create_info_struct_ok := fun _ => true;
       png_longjmp := fun _ => false |} in
  fst (main env LITTLE_ENDIAN ["xcursor_extractor"; "left_ptr"; "out"]%string)
  = 1.
Proof.
  intros env.
  assert (Hacc : access_R_OK env "left_ptr" = true) by reflexivity.
  assert (Hdir : stat_is_dir env "out" = Some false \/
                 (stat_is_dir env "out" = None /\ mkdir_ok env "out" = false))
    by (left; reflexivity).
  exact (proj1 (X11_output_directory_failure env LITTLE_ENDIAN
                  "xcursor_extractor" "left_ptr" "out" Hacc Hdir)).
Defined.

(** X12: a cursor file that cannot be opened or that libXcursor rejects
    makes [main] return 1 without opening any file for writing; an output
    directory that did not exist has been created by then and is left
    behind, empty. *)
Theorem X12_invalid_cursor_leaves_directory (env : Env) (order : ByteOrder)
    (prog input_file output_dir : string) :
  access_R_OK env input_file = true ->
  stat_is_dir env output_dir = None -> mkdir_ok env output_dir = true ->
  fopen_ok env input_file "rb" = false \/ XcursorFileLoad env input_file = None ->
  let run := main env order [prog; input_file; output_dir] in
  fst run = 1 /\ mkdirs (snd run) = [output_dir] /\
  opens "w" (snd run) = [] /\ opens "wb" (snd run) = [] /\
  file_texts (snd run) = [] /\ images_written (snd run) = [] /\
  List.length (stderr_of (snd run)) = 1%nat.
Proof.
  intros Hacc Hstat Hmk Hbad.
  assert (Hdir : create_directory env output_dir = (0, [mkdir output_dir])).
  { unfold create_directory. rewrite Hstat, Hmk. reflexivity. }
  cbv zeta.
  rewrite (main_extracts env order prog input_file output_dir Hacc)
    by (rewrite Hdir; reflexivity).
  rewrite Hdir. unfold extract_cursor_frames.
  destruct (fopen_ok env input_file "rb") eqn:Hopen; cbn [negb].
  - destruct Hbad as [Hbad|Hbad]; [discriminate Hbad|].
    rewrite Hbad. repeat split.
  - repeat split.
Qed.

Lemma X12_witness :
  let env :=
    {| access_R_OK := fun _ => true;
       stat_is_dir := fun _ => None;
       mkdir_ok := fun _ => true;
       fopen_ok := fun _ _ => true;
       strerror_errno := fun _ => ""%string;
       XcursorFileLoad := fun _ => None;
       png_create_write_struct_ok := fun _ => true;
       png_create_info_struct_ok := fun _ => true;
       png_longjmp := fun _ => false |} in
  let run :=
    main env LITTLE_ENDIAN ["xcursor_extractor"; "README"; "out"]%string in
  fst run = 1 /\ mkdirs (snd run) = ["out"%string].
Proof.
  intros env run.
  assert (Hacc : access_R_OK env "README" = true) by reflexivity.
  assert (Hstat : stat_is_dir env "out" = None) by reflexivity.
  assert (Hmk : mkdir_ok env "out" = true) by reflexivity.
  assert (Hbad : fopen_ok env "README" "rb" = false \/
                 XcursorFileLoad env "README" = None)
    by (right; reflexivity).
  destruct (X12_invalid_cursor_leaves_directory env LITTLE_ENDIAN
              "xcursor_extractor" "README" "out" Hacc Hstat Hmk Hbad)
    as (R & M & _).
  split; [exact R | exact M].
Defined.

(** The frame loop writes to no manifest, and prints one line on [stdout]
    for each image it writes in full. *)
Lemma save_frames_progress (env : Env) (order : ByteOrder)
    (output_dir : string) (images : list XcursorImage) :
  forall i : Z,
    let t := snd (save_frames env order output_dir i images) in
    file_texts t = [] /\ opens "w" t = [] /\ mkdirs t = [] /\
    List.length (stdout_of t) = List.length (images_written t) /\
    (forall s, In s (stdout_of t) ->
               exists rest, s = ("Saved frame " ++ rest)%string).
Proof.
  induction images as [|img rest IH]; intros i.
  - cbn. repeat split. intros s [].
  - cbv zeta. rewrite save_frames_step. cbv zeta.
    destruct (IH (i + 1)) as (T & O & M & L & S). cbv zeta in T, O, M, L, S.
    assert (F : let u := snd (save_frame_as_png env order img
                                (output_path output_dir i) (i + 1)) in
                file_texts u = [] /\ opens "w" u = [] /\ mkdirs u = [] /\
                stdout_of u = [] /\
                (fst (save_frame_as_png env order img
                        (output_path output_dir i) (i + 1)) = 0 ->
                 images_written u
                 = [(output_path output_dir i,
                     (width img, height img, convert_rows order img))]) /\
                (fst (save_frame_as_png env order img
                        (output_path output_dir i) (i + 1)) <> 0 ->
                 images_written u = [])).
    { unfold save_frame_as_png.
      destruct (fopen_ok env _ "wb"); cbn; [|repeat split; congruence].
      destruct (png_create_write_struct_ok env _); cbn;
        [|repeat split; congruence].
      destruct (png_create_info_struct_ok env _); cbn;
        [|repeat split; congruence].
      destruct (png_longjmp env _); cbn; repeat split; congruence. }
    destruct F as (FT & FO & FM & FS & F0 & F1).
    destruct (Z.eqb_spec (fst (save_frame_as_png env order img
                                 (output_path output_dir i) (i + 1))) 0)
      as [E|N]; cbn [snd].
    + rewrite file_texts_app, opens_app, mkdirs_app, stdout_of_app,
        images_written_app, FT, FO, FM, FS, (F0 E).
      cbn [file_texts opens mkdirs stdout_of images_written flat_map app
           List.length].
      fold (file_texts (snd (save_frames env order output_dir (i + 1) rest))).
      fold (opens "w" (snd (save_frames env order output_dir (i + 1) rest))).
      fold (mkdirs (snd (save_frames env order output_dir (i + 1) rest))).
      fold (stdout_of (snd (save_frames env order output_dir (i + 1) rest))).
      fold (images_written (snd (save_frames env order output_dir (i + 1) rest))).
      repeat split; auto.
      intros s [<-|Hs]; [|exact (S s Hs)].
      eexists. reflexivity.
    + rewrite file_texts_app, opens_app, mkdirs_app, stdout_of_app,
        images_written_app, FT, FO, FM, FS, (F1 N).
      cbn. repeat split. intros s [].
Qed.

Lemma text_stream_bind {A B : Type} (m : IO A) (k : A -> IO B) :
  Forall text_stream_event (snd m) ->
  (forall a, Forall text_stream_event (snd (k a))) ->
  Forall text_stream_event (snd (bind m k)).
Proof. intros Hm Hk. unfold bind. cbn [snd]. apply Forall_app. auto. Qed.

Lemma text_stream_emit (e : Event) :
  text_stream_event e -> Forall text_stream_event (snd (emit e)).
Proof. intros H. repeat constructor. exact H. Qed.

(** The manifest is written through [fopen], [fprintf] and [fclose]
    alone. *)
Lemma write_info_file_events (env : Env) (input_file output_dir : string)
    (comments : option XcursorComments) (images : XcursorImages) :
  Forall text_stream_event
    (snd (write_info_file env input_file output_dir comments images)).
Proof.
  assert (A : forall f l i,
             Forall text_stream_event (snd (write_frame_details f i l))).
  { intros f l. induction l as [|x l IH]; intros i; [constructor|].
    cbn [write_frame_details].
    apply text_stream_bind; [apply text_stream_emit; exact I | auto]. }
  assert (B : forall f l, Forall text_stream_event (snd (write_comments f l))).
  { intros f l. induction l as [|x l IH]; [constructor|].
    cbn [write_comments].
    apply text_stream_bind; [apply text_stream_emit; exact I | auto]. }
  unfold write_info_file. cbv zeta.
  destruct (fopen_ok env _ "w"); [|apply text_stream_emit; exact I].
  repeat (apply text_stream_bind;
          [solve [apply text_stream_emit; exact I | apply A]|intros _]).
  apply text_stream_bind; [|intros _; apply text_stream_emit; exact I].
  destruct comments as [cs|]; [|constructor].
  destruct (0 <? ncomment cs); [|constructor].
  apply text_stream_bind; [apply text_stream_emit; exact I | auto].
Qed.

Lemma text_stream_no_stdout (t : list Event) :
  Forall text_stream_event t -> stdout_of t = [].
Proof.
  induction 1 as [|e t He _ IH]; [reflexivity|].
  destruct e; try contradiction; exact IH.
Qed.

(** X13: when [extract_cursor_frames] returns 0, every image of the cursor
    has been written in full, once and in the order of the cursor, to the
    file named after its index; these are the only frame files opened, and
    a progress line was printed for each after the line that gives their
    number. *)
Theorem X13_success_writes_every_frame (env : Env) (order : ByteOrder)
    (input_file output_dir : string) :
  let run := extract_cursor_frames env order input_file output_dir in
  fst run = 0 ->
  exists comments images,
    XcursorFileLoad env input_file = Some (comments, Some images) /\
    images <> [] /\
    images_written (snd run) = frame_files order output_dir 0 images /\
    opens "wb" (snd run) = frame_paths output_dir 0 (List.length images) /\
    List.length (stdout_of (snd run)) = S (List.length images).
Proof.
  intros run R.
  destruct (extract_cursor_frames_result env order input_file output_dir)
    as [(_ & (comments & images & Hopen & Hload & Hne & Hs) & _)|(R1 & _)];
    [|fold run in R1; congruence].
  exists comments, images. split; [exact Hload|]. split; [exact Hne|].
  pose proof (extract_cursor_frames_loaded env order input_file output_dir
                comments images Hopen Hload Hne) as E.
  destruct (save_frames_saved_prefix env order output_dir images [] 0 Hs)
    as (_ & Eo & Ew).
  destruct (write_info_file_quiet env input_file output_dir comments images)
    as (_ & Qo & Qw).
  destruct (save_frames_progress env order output_dir images 0)
    as (_ & _ & _ & L & _). cbv zeta in L.
  pose proof (text_stream_no_stdout _
                (write_info_file_events env input_file output_dir comments
                   images)) as Qs.
  unfold run. rewrite E. cbn [snd].
  rewrite !images_written_app, !opens_app, !stdout_of_app, Qo, Qw, Qs, Eo, Ew.
  cbn [images_written opens stdout_of flat_map app String.eqb Ascii.eqb
       Bool.eqb List.length].
  rewrite L, Ew.
  repeat split.
  f_equal. clear. generalize 0.
  induction images as [|x l IH]; intros z; [reflexivity|].
  cbn. f_equal. apply IH.
Qed.

Lemma X13_witness :
  let run :=
    extract_cursor_frames
      (sample_env (fun _ => false) (Some [sample_image_1; sample_image_2]))
      LITTLE_ENDIAN "left_ptr" "out" in
  fst run = 0 /\
  exists comments images,
    XcursorFileLoad
      (sample_env (fun _ => false) (Some [sample_image_1; sample_image_2]))
      "left_ptr" = Some (comments, Some images) /\
    images_written (snd run) = frame_files LITTLE_ENDIAN "out" 0 images.
Proof.
  intros run.
  assert (R : fst run = 0) by reflexivity.
  split; [exact R|].
  destruct (X13_success_writes_every_frame _ LITTLE_ENDIAN "left_ptr" "out" R)
    as (comments & images & Hload & _ & Hw & _).
  exists comments, images. split; [exact Hload | exact Hw].
Defined.

(** The lines [extract_cursor_frames] prints on [stdout] announce the
    number of frames or a saved frame. *)
Lemma extract_cursor_frames_stdout (env : Env) (order : ByteOrder)
    (input_file output_dir : string) :
  forall s,
    In s (stdout_of (snd (extract_cursor_frames env order input_file
                            output_dir))) ->
    (exists rest, s = ("Found " ++ rest)%string) \/
    (exists rest, s = ("Saved frame " ++ rest)%string).
Proof.
  intros s Hs.
  destruct (fopen_ok env input_file "rb") eqn:Hopen.
  2:{ unfold extract_cursor_frames in Hs. rewrite Hopen in Hs.
      contradiction Hs. }
  destruct (XcursorFileLoad env input_file) as [[comments images]|] eqn:Hload.
  2:{ unfold extract_cursor_frames in Hs. rewrite Hopen, Hload in Hs.
      contradiction Hs. }
  destruct images as [[|img rest]|].
  - rewrite (extract_cursor_frames_no_image env order input_file output_dir
               comments (Some []) Hopen Hload) in Hs
      by (right; exists []; auto).
    contradiction Hs.
  - rewrite (extract_cursor_frames_loaded env order input_file output_dir
               comments (img :: rest) Hopen Hload) in Hs by discriminate.
    cbn [snd] in Hs. rewrite !stdout_of_app in Hs.
    rewrite (text_stream_no_stdout _
               (write_info_file_events env input_file output_dir comments
                  (img :: rest))) in Hs.
    cbn [stdout_of flat_map app] in Hs.
    destruct Hs as [<-|Hs]; [left; eexists; reflexivity|].
    right.
    exact (proj2 (proj2 (proj2 (proj2
             (save_frames_progress env order output_dir (img :: rest) 0))))
             s Hs).
  - rewrite (extract_cursor_frames_no_image env order input_file output_dir
               comments None Hopen Hload) in Hs by (left; reflexivity).
    contradiction Hs.
Qed.

(** [main] when the output directory is not in place. *)
Lemma main_directory_failure (env : Env) (order : ByteOrder)
    (prog input_file output_dir : string) :
  access_R_OK env input_file = true ->
  fst (create_directory env output_dir) = 1 ->
  main env order [prog; input_file; output_dir]
  = (1, snd (create_directory env output_dir)
        ++ [to_stderr ("Error: Cannot create output directory '"
                       ++ output_dir ++ "'" ++ newline)%string]).
Proof.
  intros Hacc Hdir. unfold main.
  cbn [List.length Z.of_nat Pos.of_succ_nat Pos.succ Z.eqb Pos.eqb negb nth].
  rewrite Hacc. cbn [negb]. unfold bind at 1. rewrite Hdir. reflexivity.
Qed.

(** X14: the line [Successfully extracted cursor frames to '<dir>'] is on
    [stdout] exactly when the process exits with code 0. *)
Theorem X14_success_message_iff_exit_0 (env : Env) (order : ByteOrder)
    (argv : list string) :
  let run := main env order argv in
  fst run = 0 <->
  In (success_message (nth 2 argv ""%string)) (stdout_of (snd run)).
Proof.
  cbv zeta.
  destruct (Nat.eq_dec (List.length argv) 3) as [Hlen|Hlen].
  2:{ rewrite (main_usage env order argv Hlen). cbn [fst snd].
      split; [discriminate|]. unfold success_message. cbn.
      intros H. repeat (destruct H as [H|H]; [discriminate H|]).
      contradiction H. }
  destruct argv as [|prog [|input_file [|output_dir [|extra argv]]]];
    try discriminate Hlen.
  cbn [nth].
  destruct (access_R_OK env input_file) eqn:Hacc.
  2:{ unfold main.
      cbn [List.length Z.of_nat Pos.of_succ_nat Pos.succ Z.eqb Pos.eqb negb nth].
      rewrite Hacc. cbn. split; [discriminate | contradiction]. }
  destruct (create_directory_effects env output_dir)
    as (_ & _ & _ & _ & Ds & _). cbv zeta in Ds.
  destruct (create_directory_result env output_dir) as [[Hdir _]|[Hdir _]].
  2:{ rewrite (main_directory_failure env order prog input_file output_dir
                 Hacc Hdir).
      cbn [fst snd]. rewrite stdout_of_app, Ds.
      split; [discriminate | contradiction]. }
  rewrite (main_extracts env order prog input_file output_dir Hacc Hdir).
  cbn [fst snd]. rewrite !stdout_of_app, Ds. cbn [app].
  destruct (extract_cursor_frames_result env order input_file output_dir)
    as [(R & _)|(R & _)]; rewrite R; cbn [Z.eqb].
  - split; [intros _|reflexivity].
    apply in_or_app. right. left. reflexivity.
  - split; [discriminate|]. cbn [stdout_of flat_map]. rewrite app_nil_r.
    intros H.
    destruct (extract_cursor_frames_stdout env order input_file output_dir _ H)
      as [(rest & E)|(rest & E)]; unfold success_message in E; discriminate E.
Qed.

Lemma write_frame_details_texts (info_file : string)
    (images : list XcursorImage) :
  forall i : Z,
    let texts := file_texts (snd (write_frame_details info_file i images)) in
    List.length texts = List.length images /\
    Forall (fun entry => fst entry = info_file) texts.
Proof.
  induction images as [|img rest IH]; intros i; [cbn; auto|].
  destruct (IH (i + 1)) as (L & F). cbn. split; [f_equal; exact L|].
  constructor; [reflexivity | exact F].
Qed.

Lemma write_comments_texts (info_file : string)
    (comments : list XcursorComment) :
  let texts := file_texts (snd (write_comments info_file comments)) in
  List.length texts = List.length comments /\
  Forall (fun entry => fst entry = info_file) texts.
Proof.
  induction comments as [|c rest IH]; [cbn; auto|].
  destruct IH as (L & F). cbn. split; [f_equal; exact L|].
  constructor; [reflexivity | exact F].
Qed.

(** X15: when the manifest can be created, the extraction writes it in
    full whether or not the frames are then saved: a line that names the
    cursor file, a line that gives the number of frames, three more lines
    of heading, one line for each image of the cursor and, when there are
    comments, a heading and one line for each; every line goes to the
    manifest and nothing else is written as text. *)
Theorem X15_manifest_lists_every_frame (env : Env) (order : ByteOrder)
    (input_file output_dir : string) (comments : option XcursorComments)
    (images : XcursorImages) :
  let info_file := snprintf 1024 (output_dir ++ "/cursor_info.txt")%string in
  fopen_ok env input_file "rb" = true ->
  XcursorFileLoad env input_file = Some (comments, Some images) ->
  images <> [] ->
  fopen_ok env info_file "w" = true ->
  let texts :=
    file_texts (snd (extract_cursor_frames env order input_file output_dir)) in
  let ncomments :=
    match comments with Some cs => List.length cs | None => 0%nat end in
  List.length texts
  = (5 + List.length images
     + match ncomments with O => 0 | S _ => 1 + ncomments end)%nat /\
  Forall (fun entry => fst entry = info_file) texts /\
  nth 0 texts (""%string, ""%string)
  = (info_file, ("Cursor File: " ++ input_file ++ newline)%string) /\
  nth 1 texts (""%string, ""%string)
  = (info_file,
     ("Number of frames: " ++ fmt_d (nimage images) ++ newline)%string).
Proof.
  intros info_file Hopen Hload Hne Hinfo texts ncomments.
  unfold texts.
  rewrite (extract_cursor_frames_loaded env order input_file output_dir
             comments images Hopen Hload Hne).
  cbn [snd]. rewrite !file_texts_app.
  rewrite (proj1 (save_frames_progress env order output_dir images 0)).
  cbn [file_texts flat_map app]. rewrite app_nil_r.
  unfold write_info_file. cbv zeta. fold info_file. rewrite Hinfo.
  cbn [bind emit fst snd app file_texts flat_map].
  fold file_texts. rewrite !file_texts_app.
  destruct (write_frame_details_texts info_file images 0) as (LF & FF).
  cbv zeta in LF, FF.
  unfold ncomments.
  destruct comments as [[|c cs]|].
  - cbn [file_texts flat_map app ncomment List.length Z.of_nat Z.ltb
         Z.compare ret snd].
    rewrite !app_nil_r. repeat split.
    + cbn [List.length]. rewrite LF. lia.
    + repeat (constructor; [reflexivity|]). exact FF.
  - destruct (write_comments_texts info_file (c :: cs)) as (LC & FC).
    cbv zeta in LC, FC.
    change (0 <? ncomment (c :: cs)) with true. cbv iota.
    cbn [bind emit fst snd app file_texts flat_map].
    fold file_texts. rewrite app_nil_r. repeat split.
    + cbn [List.length]. rewrite !length_app, LF. cbn [List.length].
      unfold file_texts in LC. rewrite LC. cbn [List.length]. lia.
    + repeat (constructor; [reflexivity|]).
      apply Forall_app. split; [exact FF|].
      constructor; [reflexivity | exact FC].
  - cbn [file_texts flat_map app ret snd].
    rewrite !app_nil_r. repeat split.
    + cbn [List.length]. rewrite LF. lia.
    + repeat (constructor; [reflexivity|]). exact FF.
Qed.

Lemma X15_witness :
  List.length
    (file_texts
       (snd (extract_cursor_frames env_second_frame_unwritable LITTLE_ENDIAN
               "left_ptr" "out")))
  = 10%nat.
Proof.
  assert (Hopen : fopen_ok env_second_frame_unwritable "left_ptr" "rb" = true)
    by reflexivity.
  assert (Hload : XcursorFileLoad env_second_frame_unwritable "left_ptr"
                  = Some (Some [{| comment_type := 1; comment := "sample" |}],
                          Some [sample_image_1; sample_image_2; sample_image_1]))
    by reflexivity.
  assert (Hne : [sample_image_1; sample_image_2; sample_image_1] <> [])
    by discriminate.
  assert (Hinfo : fopen_ok env_second_frame_unwritable
                    (snprintf 1024 ("out" ++ "/cursor_info.txt")%string) "w"
                  = true) by reflexivity.
  exact (proj1 (X15_manifest_lists_every_frame env_second_frame_unwritable
                  LITTLE_ENDIAN "left_ptr" "out" _ _ Hopen Hload Hne Hinfo)).
Defined.

(** X16: when the file of a frame has been opened and libpng then fails
    (no write structure, no info structure, or an error while writing),
    [save_frame_as_png] closes the file and returns 1 without a message of
    its own and without removing the file: the file stays behind, created
    but holding no complete image. *)
Theorem X16_failed_encoding_leaves_file (env : Env) (order : ByteOrder)
    (image : XcursorImage) (filename : string) (frame_num : Z) :
  fopen_ok env filename "wb" = true ->
  png_create_write_struct_ok env filename = false \/
  png_create_info_struct_ok env filename = false \/
  png_longjmp env filename = true ->
  let run := save_frame_as_png env order image filename frame_num in
  fst run = 1 /\
  streams_opened (snd run) = [filename] /\
  images_written (snd run) = [] /\
  stderr_of (snd run) = [] /\
  last (snd run) (to_stdout ""%string) = fclose filename.
Proof.
  intros Hopen Hpng. cbv zeta. unfold save_frame_as_png. rewrite Hopen.
  cbn [negb].
  destruct (png_create_write_struct_ok env filename); [|repeat split].
  destruct (png_create_info_struct_ok env filename); [|repeat split].
  destruct (png_longjmp env filename); [repeat split|].
  destruct Hpng as [H|[H|H]]; discriminate H.
Qed.

Lemma X16_witness :
  let env :=
    {| access_R_OK := fun _ => true;
       stat_is_dir := fun _ => Some true;
       mkdir_ok := fun _ => true;
       fopen_ok := fun _ _ => true;
       strerror_errno := fun _ => ""%string;
       XcursorFileLoad := fun _ => None;
       png_create_write_struct_ok := fun _ => true;
       png_create_info_struct_ok := fun _ => true;
       png_longjmp := fun _ => true |} in
  let run :=
    save_frame_as_png env LITTLE_ENDIAN sample_image_1 "out/frame_001.png" 1 in
  fst run = 1 /\ streams_opened (snd run) = ["out/frame_001.png"%string] /\
  images_written (snd run) = [].
Proof.
  intros env.
  assert (Hopen : fopen_ok env "out/frame_001.png" "wb" = true) by reflexivity.
  assert (Hpng : png_create_write_struct_ok env "out/frame_001.png" = false \/
                 png_create_info_struct_ok env "out/frame_001.png" = false \/
                 png_longjmp env "out/frame_001.png" = true)
    by (right; right; reflexivity).
  destruct (X16_failed_encoding_leaves_file env LITTLE_ENDIAN sample_image_1
              "out/frame_001.png" 1 Hopen Hpng) as (R & S & W & _).
  split; [exact R|]. split; [exact S | exact W].
Defined.
